(** * A shallow embedding of [dcos.api.marathon]

    The module under study is the Marathon client of the DCOS command line:
    a [Client] that builds a URL, issues one HTTP call through [requests],
    and turns the status code and the JSON body of the response into a
    Python value or an [Error].

    Conventions of the embedding (Python 3.7 to 3.11 semantics):
    - a Python [str] is a [string]; every character is read as the code
      point of the same number, so the texts of the model are those whose
      code points lie below 256;
    - the values that [response.json()] yields are the inductive [value];
      JSON numbers with a fractional part are left out of that domain;
    - a call either returns or raises: [outcome];
    - logging and the requests put on the wire are threaded explicitly
      through the state [world]. *)

From Stdlib Require Import ZArith List String Ascii Bool Lia DecimalString.
Import ListNotations.

Local Open Scope string_scope.
Local Open Scope Z_scope.

(** ** Text primitives of the Python runtime *)

Module Text.

Definition slash : ascii := "/"%char.
Definition percent : ascii := "%"%char.

Definition is_slash (c : ascii) : bool := Ascii.eqb c slash.

(** [s.lstrip('/')] *)
Fixpoint lstrip_slash (s : string) : string :=
  match s with
  | String c r => if is_slash c then lstrip_slash r else s
  | EmptyString => EmptyString
  end.

Definition is_empty (s : string) : bool :=
  match s with EmptyString => true | String _ _ => false end.

(** [s.rstrip('/')] *)
Fixpoint rstrip_slash (s : string) : string :=
  match s with
  | EmptyString => EmptyString
  | String c r =>
      let r' := rstrip_slash r in
      if is_slash c && is_empty r' then EmptyString else String c r'
  end.

(** [s.strip('/')] *)
Definition strip_slash (s : string) : string :=
  rstrip_slash (lstrip_slash s).

Fixpoint last_char (s : string) : option ascii :=
  match s with
  | EmptyString => None
  | String c EmptyString => Some c
  | String _ r => last_char r
  end.

Definition first_char (s : string) : option ascii :=
  match s with
  | EmptyString => None
  | String c _ => Some c
  end.

Fixpoint forallb_string (p : ascii -> bool) (s : string) : bool :=
  match s with
  | EmptyString => true
  | String c r => p c && forallb_string p r
  end.

Fixpoint existsb_string (p : ascii -> bool) (s : string) : bool :=
  match s with
  | EmptyString => false
  | String c r => p c || existsb_string p r
  end.

(** [sep.join(parts)] *)
Fixpoint join (sep : string) (parts : list string) : string :=
  match parts with
  | [] => ""
  | [p] => p
  | p :: rest => p ++ sep ++ join sep rest
  end.

(** [str(n)] for an [int] *)
Definition str_of_int (n : Z) : string :=
  NilZero.string_of_int (Z.to_int n).

(** The sixteen digits, upper case as in ['%02X'] and lower case as in
    the escapes of [repr]. *)
Definition hex_digit (upper : bool) (n : N) : ascii :=
  match n with
  | 0%N => "0" | 1%N => "1" | 2%N => "2" | 3%N => "3" | 4%N => "4"
  | 5%N => "5" | 6%N => "6" | 7%N => "7" | 8%N => "8" | 9%N => "9"
  | 10%N => if upper then "A" else "a"
  | 11%N => if upper then "B" else "b"
  | 12%N => if upper then "C" else "c"
  | 13%N => if upper then "D" else "d"
  | 14%N => if upper then "E" else "e"
  | _ => if upper then "F" else "f"
  end%char.

Definition hex2 (upper : bool) (c : ascii) : string :=
  let n := N_of_ascii c in
  String (hex_digit upper (n / 16)) (String (hex_digit upper (n mod 16)) "").

(** Value of a hexadecimal digit, either case, as [bytes.fromhex] reads
    it. *)
Definition hex_value (c : ascii) : option N :=
  let n := N_of_ascii c in
  if (48 <=? n)%N && (n <=? 57)%N then Some (n - 48)%N
  else if (65 <=? n)%N && (n <=? 70)%N then Some (n - 55)%N
  else if (97 <=? n)%N && (n <=? 102)%N then Some (n - 87)%N
  else None.

(** [s.encode('utf-8')] on code points below 256: one byte below 128,
    two bytes from there on. *)
Definition utf8_char (c : ascii) : string :=
  let n := N_of_ascii c in
  if (n <? 128)%N then String c ""
  else String (ascii_of_N (192 + n / 64)) (String (ascii_of_N (128 + n mod 64)) "").

Fixpoint utf8 (s : string) : string :=
  match s with
  | EmptyString => EmptyString
  | String c r => utf8_char c ++ utf8 r
  end.

End Text.

(** ** [urllib.parse]: [quote], [quote_plus], [urlencode] *)

Module Urllib.
Import Text.

(** [_ALWAYS_SAFE]: letters, digits and [_.-~]. *)
Definition always_safe (c : ascii) : bool :=
  let n := N_of_ascii c in
  ((65 <=? n) && (n <=? 90) || (97 <=? n) && (n <=? 122)
   || (48 <=? n) && (n <=? 57)
   || (n =? 95) || (n =? 46) || (n =? 45) || (n =? 126))%N.

(** [Quoter.__missing__]: a safe byte stands for itself, any other byte
    becomes ['%{:02X}'.format(b)]. *)
Definition quote_byte (safe : ascii -> bool) (b : ascii) : string :=
  if always_safe b || safe b then String b ""
  else String percent (hex2 true b).

Fixpoint quote_from_bytes (safe : ascii -> bool) (bs : string) : string :=
  match bs with
  | EmptyString => EmptyString
  | String b r => quote_byte safe b ++ quote_from_bytes safe r
  end.

(** [quote(string)] with its default [safe='/']. *)
Definition quote (s : string) : string :=
  quote_from_bytes is_slash (utf8 s).

Definition is_space (c : ascii) : bool := Ascii.eqb c " "%char.

Fixpoint spaces_to_plus (s : string) : string :=
  match s with
  | EmptyString => EmptyString
  | String c r => String (if is_space c then "+"%char else c) (spaces_to_plus r)
  end.

(** [quote_plus(string)] with its default [safe='']: the space is kept
    through quoting and then replaced by a plus sign. *)
Definition quote_plus (s : string) : string :=
  spaces_to_plus (quote_from_bytes is_space (utf8 s)).

(** [unquote_to_bytes]: every [%XY] with two hexadecimal digits is read
    back as one byte, anything else is kept. *)
Fixpoint unquote_to_bytes (s : string) : string :=
  match s with
  | EmptyString => EmptyString
  | String c t =>
      if Ascii.eqb c percent then
        match t with
        | String h1 (String h2 r) =>
            match hex_value h1, hex_value h2 with
            | Some a, Some b =>
                String (ascii_of_N (16 * a + b)) (unquote_to_bytes r)
            | _, _ => String c (unquote_to_bytes t)
            end
        | _ => String c (unquote_to_bytes t)
        end
      else String c (unquote_to_bytes t)
  end.

End Urllib.

(** ** Python values, [str] and [repr] *)

(** What [json.loads] builds: [None], booleans, integers, text, lists and
    dictionaries with text keys.  A dictionary keeps its items in insertion
    order; a lookup takes the first item of that key. *)
#[warnings="-register-all"]
Inductive value : Type :=
| VNone
| VBool (b : bool)
| VInt (n : Z)
| VStr (s : string)
| VList (l : list value)
| VDict (d : list (string * value)).

Module Py.
Import Text.

Definition apostrophe : ascii := "'"%char.
Definition dquote : ascii := ascii_of_N 34.
Definition backslash : ascii := ascii_of_N 92.

(** [str.isprintable] on one code point below 256. *)
Definition printable (c : ascii) : bool :=
  let n := N_of_ascii c in
  ((32 <=? n) && (n <? 127) || (161 <=? n) && negb (n =? 173))%N.

Definition repr_char (q c : ascii) : string :=
  let n := N_of_ascii c in
  if Ascii.eqb c q || Ascii.eqb c backslash then String backslash (String c "")
  else if (n =? 9)%N then String backslash "t"
  else if (n =? 10)%N then String backslash "n"
  else if (n =? 13)%N then String backslash "r"
  else if printable c then String c ""
  else String backslash (String "x" (hex2 false c)).

Fixpoint repr_chars (q : ascii) (s : string) : string :=
  match s with
  | EmptyString => EmptyString
  | String c r => repr_char q c ++ repr_chars q r
  end.

(** [repr(s)] for text: apostrophes around it, unless it holds an
    apostrophe and no double quote. *)
Definition repr_str (s : string) : string :=
  let q :=
    if existsb_string (Ascii.eqb apostrophe) s
       && negb (existsb_string (Ascii.eqb dquote) s)
    then dquote else apostrophe in
  String q (repr_chars q s ++ String q "").

Fixpoint repr (v : value) : string :=
  match v with
  | VNone => "None"
  | VBool true => "True"
  | VBool false => "False"
  | VInt n => str_of_int n
  | VStr s => repr_str s
  | VList l => "[" ++ join ", " (map repr l) ++ "]"
  | VDict d =>
      "{" ++ join ", " (map (fun kv => repr_str (fst kv) ++ ": " ++ repr (snd kv)) d)
          ++ "}"
  end.

(** [str(v)], which is what ['{}'.format(v)] inserts. *)
Definition str (v : value) : string :=
  match v with
  | VStr s => s
  | _ => repr v
  end.

(** [l[:k]]: the first [k] items, or all but the last [-k] when [k] is
    negative. *)
Definition stop_index (len : nat) (k : Z) : nat :=
  if k <? 0 then Z.to_nat (Z.of_nat len + k) else Z.to_nat k.

Definition slice_to {A : Type} (l : list A) (k : Z) : list A :=
  firstn (stop_index (List.length l) k) l.

Definition slice_str_to (s : string) (k : Z) : string :=
  substring 0 (Nat.min (stop_index (String.length s) k) (String.length s)) s.

(** First item of a key in a dictionary. *)
Fixpoint lookup (k : string) (d : list (string * value)) : option value :=
  match d with
  | [] => None
  | (k', v) :: r => if String.eqb k k' then Some v else lookup k r
  end.

Definition is_none (v : value) : bool :=
  match v with VNone => true | _ => false end.

End Py.

(** ** Calls that return or raise, over a log and a wire *)

Inductive exn : Type :=
| KeyError            (* a dictionary has no such key *)
| TypeError           (* subscript or slice of a value that has none *)
| AttributeError      (* [.get] on a value that is no dictionary *)
| ValueError          (* the text is not JSON *)
| FormatError         (* [str.format] rejects its template *)
| RequestException.   (* the transport gave no response *)

Inductive outcome (A : Type) : Type :=
| Ret (a : A)
| Raise (e : exn).
Arguments Ret {A} a.
Arguments Raise {A} e.

Inductive log_level : Type := INFO | ERROR.

(** A record handed to [logger]: the template and its arguments, as the
    logging module keeps them. *)
Record log_record : Type := mkLog {
  level : log_level;
  template : string;
  log_args : list value
}.

Inductive http_method : Type := GET | POST | PUT | DELETE.

Record request : Type := mkRequest {
  method : http_method;
  url : string;
  json_body : option value      (* the [json=] argument of [requests] *)
}.

(** A [requests.Response]: the status code and what [response.json()]
    makes of the body, [None] when the body is not JSON. *)
Record response : Type := mkResponse {
  status_code : Z;
  json : option value
}.

(** The remote end: what [requests.get] and its siblings answer. *)
Definition transport : Type := request -> outcome response.

Record world : Type := mkWorld {
  logged : list log_record;
  sent : list request
}.

Definition M (A : Type) : Type := world -> outcome A * world.

Definition ret {A} (a : A) : M A := fun w => (Ret a, w).

Definition bind {A B} (m : M A) (f : A -> M B) : M B :=
  fun w =>
    match m w with
    | (Ret a, w') => f a w'
    | (Raise e, w') => (Raise e, w')
    end.

Definition lift {A} (o : outcome A) : M A := fun w => (o, w).

Notation "x <- m ;; k" := (bind m (fun x => k))
  (at level 61, m at next level, right associativity).
Notation "m ;;; k" := (bind m (fun _ => k))
  (at level 61, right associativity).

Definition log (lv : log_level) (t : string) (a : list value) : M unit :=
  fun w => (Ret tt, mkWorld (logged w ++ [mkLog lv t a]) (sent w)).

Definition send (net : transport) (r : request) : M response :=
  fun w => (net r, mkWorld (logged w) (sent w ++ [r])).

(** [response.json()] *)
Definition response_json (r : response) : outcome value :=
  match json r with
  | Some v => Ret v
  | None => Raise ValueError
  end.

(** [v[key]] for a text key *)
Definition subscript (v : value) (key : string) : outcome value :=
  match v with
  | VDict d =>
      match Py.lookup key d with
      | Some x => Ret x
      | None => Raise KeyError
      end
  | _ => Raise TypeError
  end.

(** [v.get(key)] *)
Definition dict_get (v : value) (key : string) : outcome value :=
  match v with
  | VDict d =>
      match Py.lookup key d with
      | Some x => Ret x
      | None => Ret VNone
      end
  | _ => Raise AttributeError
  end.

(** [v[:k]] *)
Definition slice (v : value) (k : Z) : outcome value :=
  match v with
  | VList l => Ret (VList (Py.slice_to l k))
  | VStr s => Ret (VStr (Py.slice_str_to s k))
  | _ => Raise TypeError
  end.

(** ** [str.format] on the assembled URL *)

Module Format.

Definition is_brace (c : ascii) : bool :=
  Ascii.eqb c "{"%char || Ascii.eqb c "}"%char.

(** What a template without replacement field formats to: a doubled
    brace stands for one brace; a brace on its own opens a field or is
    rejected, and there is no literal text then. *)
Fixpoint literal_text (t : string) : option string :=
  match t with
  | EmptyString => Some EmptyString
  | String c r =>
      if is_brace c then
        match r with
        | String c' r' =>
            if Ascii.eqb c c' then option_map (String c) (literal_text r')
            else None
        | EmptyString => None
        end
      else option_map (String c) (literal_text r)
  end.

(** [(prefix + '?{}').format(arg)].  The one positional argument goes to
    the closing field; a field inside [prefix] takes it first, or names
    something else, and the call raises (an [IndexError], [KeyError],
    [ValueError] or the like of Python, all read as [FormatError]). *)
Definition format_query (prefix arg : string) : outcome string :=
  match literal_text prefix with
  | Some text => Ret (text ++ "?" ++ arg)
  | None => Raise FormatError
  end.

Definition brace_free (s : string) : bool :=
  Text.forallb_string (fun c => negb (is_brace c)) s.

End Format.

(** [urlencode(query)] for a dictionary: [quote_plus(str(k))=quote_plus(str(v))],
    joined by ampersands. *)
Definition urlencode (query : list (string * value)) : string :=
  Text.join "&"
    (map (fun kv => Urllib.quote_plus (fst kv) ++ "=" ++ Urllib.quote_plus (Py.str (snd kv)))
         query).

(** ** The module [dcos.api.marathon] *)

(** [class Error]: one message. *)
Inductive Error : Type := mkError (_message : string).

Definition error (e : Error) : string :=
  match e with mkError m => m end.

(** [class Client]: the host and the port of the Marathon server; the URL
    pattern is the constant ["http://{host}:{port}/{path}"]. *)
Record Client : Type := mkClient {
  _host : string;
  _port : Z
}.

(** [self._url_pattern.format(host=..., port=..., path=path)] *)
Definition url_pattern (self : Client) (path : string) : string :=
  "http://" ++ _host self ++ ":" ++ Text.str_of_int (_port self) ++ "/" ++ path.

Definition _create_url (self : Client) (path : string)
    (query_params : option (list (string * value))) : outcome string :=
  let url := url_pattern self path in
  match query_params with
  | Some q => Format.format_query url (urlencode q)
  | None => Ret url
  end.

Definition _sanitize_app_id (app_id : string) : string :=
  Urllib.quote ("/" ++ Text.strip_slash app_id).

Definition _response_to_error (r : response) : M Error :=
  body <- lift (response_json r) ;;
  message <- lift (dict_get body "message") ;;
  if Py.is_none message then
    body' <- lift (response_json r) ;;
    log ERROR "Marathon server did not return a message: %s" [body'] ;;;
    ret (mkError "Unknown error from Marathon")
  else
    body' <- lift (response_json r) ;;
    m <- lift (subscript body' "message") ;;
    ret (mkError ("Error: " ++ Py.str m)).

Definition get_app (net : transport) (self : Client) (app_id : string)
    (version : option string) : M (value * option Error) :=
  let app_id := _sanitize_app_id app_id in
  url <- lift (match version with
               | None => _create_url self ("v2/apps" ++ app_id) None
               | Some v =>
                   _create_url self ("v2/apps" ++ app_id ++ "/versions/" ++ v) None
               end) ;;
  log INFO "Getting %r" [VStr url] ;;;
  r <- send net (mkRequest GET url None) ;;
  body <- lift (response_json r) ;;
  log INFO "Got (%r): %r" [VInt (status_code r); body] ;;;
  if status_code r =? 200 then
    match version with
    | None =>
        body' <- lift (response_json r) ;;
        app <- lift (subscript body' "app") ;;
        ret (app, None)
    | Some _ =>
        body' <- lift (response_json r) ;;
        ret (body', None)
    end
  else
    e <- _response_to_error r ;;
    ret (VNone, Some e).

Definition get_app_versions (net : transport) (self : Client) (app_id : string)
    (max_count : option Z) : M (value * option Error) :=
  let app_id := _sanitize_app_id app_id in
  url <- lift (_create_url self ("v2/apps" ++ app_id ++ "/versions") None) ;;
  log INFO "Getting %r" [VStr url] ;;;
  r <- send net (mkRequest GET url None) ;;
  body <- lift (response_json r) ;;
  log INFO "Got (%r): %r" [VInt (status_code r); body] ;;;
  if status_code r =? 200 then
    match max_count with
    | None =>
        body' <- lift (response_json r) ;;
        versions <- lift (subscript body' "versions") ;;
        ret (versions, None)
    | Some k =>
        body' <- lift (response_json r) ;;
        versions <- lift (subscript body' "versions") ;;
        cut <- lift (slice versions k) ;;
        ret (cut, None)
    end
  else
    e <- _response_to_error r ;;
    ret (VNone, Some e).

Definition get_apps (net : transport) (self : Client) : M (value * option Error) :=
  url <- lift (_create_url self "v2/apps" None) ;;
  r <- send net (mkRequest GET url None) ;;
  if status_code r =? 200 then
    body <- lift (response_json r) ;;
    apps <- lift (subscript body "apps") ;;
    ret (apps, None)
  else
    e <- _response_to_error r ;;
    ret (VNone, Some e).

(** What [add_app] is given: a value without a [read] attribute, passed on
    as it is, or a readable source, seen through what [json.load] makes of
    its content ([None]: the content is not JSON). *)
Inductive app_resource : Type :=
| Parsed (v : value)
| Readable (content : option value).

Definition json_load (content : option value) : outcome value :=
  match content with
  | Some v => Ret v
  | None => Raise ValueError
  end.

Definition add_app (net : transport) (self : Client) (res : app_resource)
    : M (option Error) :=
  url <- lift (_create_url self "v2/apps" None) ;;
  app_json <- lift (match res with
                    | Readable content => json_load content
                    | Parsed v => Ret v
                    end) ;;
  log INFO "Posting %r to %r" [app_json; VStr url] ;;;
  r <- send net (mkRequest POST url (Some app_json)) ;;
  if status_code r =? 201 then ret None
  else
    e <- _response_to_error r ;;
    ret (Some e).

Definition scale_app (net : transport) (self : Client) (app_id : string)
    (instances : Z) (force : option bool) : M (value * option Error) :=
  let force := match force with None => false | Some b => b end in
  let app_id := _sanitize_app_id app_id in
  let params := if force then Some [("force", VBool true)] else None in
  url <- lift (_create_url self ("v2/apps" ++ app_id) params) ;;
  r <- send net (mkRequest PUT url (Some (VDict [("instances", VInt instances)]))) ;;
  if status_code r =? 200 then
    body <- lift (response_json r) ;;
    deployment <- lift (subscript body "deploymentId") ;;
    ret (deployment, None)
  else
    e <- _response_to_error r ;;
    ret (VNone, Some e).

Definition suspend_app (net : transport) (self : Client) (app_id : string)
    (force : option bool) : M (value * option Error) :=
  scale_app net self app_id 0 force.

Definition remove_app (net : transport) (self : Client) (app_id : string)
    (force : option bool) : M (option Error) :=
  let force := match force with None => false | Some b => b end in
  let app_id := _sanitize_app_id app_id in
  let params := if force then Some [("force", VBool true)] else None in
  url <- lift (_create_url self ("v2/apps" ++ app_id) params) ;;
  r <- send net (mkRequest DELETE url None) ;;
  if status_code r =? 200 then ret None
  else
    e <- _response_to_error r ;;
    ret (Some e).



(** ** The client surface as one dispatcher *)

(** A call of one of the seven operations, with its arguments. *)
Inductive call : Type :=
| GetApp (app_id : string) (version : option string)
| GetAppVersions (app_id : string) (max_count : option Z)
| GetApps
| AddApp (res : app_resource)
| ScaleApp (app_id : string) (instances : Z) (force : option bool)
| SuspendApp (app_id : string) (force : option bool)
| RemoveApp (app_id : string) (force : option bool).

(** What a call hands back: the pair [(value, error)] of the reading and
    scaling operations, or the lone error-or-[None] of [add_app] and
    [remove_app]. *)
Inductive returned : Type :=
| Pair (v : value) (e : option Error)
| Single (e : option Error).

Definition pair_of (p : value * option Error) : returned := Pair (fst p) (snd p).

Definition run (net : transport) (self : Client) (c : call) : M returned :=
  match c with
  | GetApp a v => p <- get_app net self a v ;; ret (pair_of p)
  | GetAppVersions a k => p <- get_app_versions net self a k ;; ret (pair_of p)
  | GetApps => p <- get_apps net self ;; ret (pair_of p)
  | AddApp res => e <- add_app net self res ;; ret (Single e)
  | ScaleApp a n f => p <- scale_app net self a n f ;; ret (pair_of p)
  | SuspendApp a f => p <- suspend_app net self a f ;; ret (pair_of p)
  | RemoveApp a f => e <- remove_app net self a f ;; ret (Single e)
  end.

(** The status that counts as success, per operation. *)
Definition success_code (c : call) : Z :=
  match c with
  | AddApp _ => 201
  | _ => 200
  end.

(** The key an operation reads from a success-coded body, if any. *)
Definition expected_field (c : call) : option string :=
  match c with
  | GetApp _ None => Some "app"
  | GetApp _ (Some _) => None
  | GetAppVersions _ _ => Some "versions"
  | GetApps => Some "apps"
  | ScaleApp _ _ _ | SuspendApp _ _ => Some "deploymentId"
  | AddApp _ | RemoveApp _ _ => None
  end.

Definition force_params (force : option bool) : option (list (string * value)) :=
  match force with
  | Some true => Some [("force", VBool true)]
  | _ => None
  end.

(** The one request a call puts on the wire, when it gets that far. *)
Definition the_request (self : Client) (c : call) : outcome request :=
  match c with
  | GetApp a None =>
      Ret (mkRequest GET (url_pattern self ("v2/apps" ++ _sanitize_app_id a)) None)
  | GetApp a (Some v) =>
      Ret (mkRequest GET
             (url_pattern self ("v2/apps" ++ _sanitize_app_id a ++ "/versions/" ++ v))
             None)
  | GetAppVersions a _ =>
      Ret (mkRequest GET
             (url_pattern self ("v2/apps" ++ _sanitize_app_id a ++ "/versions")) None)
  | GetApps => Ret (mkRequest GET (url_pattern self "v2/apps") None)
  | AddApp (Parsed v) => Ret (mkRequest POST (url_pattern self "v2/apps") (Some v))
  | AddApp (Readable (Some v)) =>
      Ret (mkRequest POST (url_pattern self "v2/apps") (Some v))
  | AddApp (Readable None) => Raise ValueError
  | ScaleApp a n f =>
      match _create_url self ("v2/apps" ++ _sanitize_app_id a) (force_params f) with
      | Ret u => Ret (mkRequest PUT u (Some (VDict [("instances", VInt n)])))
      | Raise e => Raise e
      end
  | SuspendApp a f =>
      match _create_url self ("v2/apps" ++ _sanitize_app_id a) (force_params f) with
      | Ret u => Ret (mkRequest PUT u (Some (VDict [("instances", VInt 0)])))
      | Raise e => Raise e
      end
  | RemoveApp a f =>
      match _create_url self ("v2/apps" ++ _sanitize_app_id a) (force_params f) with
      | Ret u => Ret (mkRequest DELETE u None)
      | Raise e => Raise e
      end
  end.

(** The shape of a failure, per operation. *)
Definition failure (c : call) (e : Error) : returned :=
  match c with
  | AddApp _ | RemoveApp _ _ => Single (Some e)
  | _ => Pair VNone (Some e)
  end.

(** Exactly one of the success value and the error is there.  A lone
    error-or-[None] has no success value to compare with. *)
Definition either_or (res : returned) : Prop :=
  match res with
  | Pair v e => (v <> VNone /\ e = None) \/ (v = VNone /\ e <> None)
  | Single _ => True
  end.

(** ** Sample runs *)

Definition marathon : Client := mkClient "localhost" 8080.
Definition w0 : world := mkWorld [] [].

(** ** Vocabulary of the statements *)

(** The characters a quoted text is made of. *)
Definition url_char (c : ascii) : bool :=
  Urllib.always_safe c || Text.is_slash c || Ascii.eqb c Text.percent.

(** A path segment: not empty and without a slash. *)
Definition slash_free (s : string) : bool :=
  Text.forallb_string (fun c => negb (Text.is_slash c)) s.

Definition is_segment (s : string) : bool :=
  negb (Text.is_empty s) && slash_free s.

(** A value an operation can hand back as its success value: anything but
    [None], and something that can be sliced -- a list or a text -- where
    [get_app_versions] is given a count. *)
Definition acceptable (c : call) (x : value) : bool :=
  match x with
  | VNone => false
  | VList _ | VStr _ => true
  | _ => match c with GetAppVersions _ (Some _) => false | _ => true end
  end.

(** The dictionary holds such a value under the key the operation reads. *)
Definition carries (c : call) (d : list (string * value)) : bool :=
  match expected_field c with
  | Some f =>
      match Py.lookup f d with
      | Some x => acceptable c x
      | None => false
      end
  | None => true
  end.

Definition error_of (res : returned) : option Error :=
  match res with Pair _ e | Single e => e end.

Definition is_error_record (l : log_record) : bool :=
  match level l with ERROR => true | INFO => false end.

(** What has been logged at error level. *)
Definition error_records (w : world) : list log_record :=
  filter is_error_record (logged w).

Definition no_message_record (body : value) : log_record :=
  mkLog ERROR "Marathon server did not return a message: %s" [body].

(** Sample answers of the server. *)
Definition app_found : response :=
  mkResponse 200 (Some (VDict [("app", VDict [("id", VStr "/x")])])).
Definition app_null : response :=
  mkResponse 200 (Some (VDict [("app", VNone)])).
Definition app_not_found : response :=
  mkResponse 404 (Some (VDict [("message", VStr "App not found")])).
Definition message_null : response :=
  mkResponse 404 (Some (VDict [("message", VNone)])).
Definition empty_object : response := mkResponse 200 (Some (VDict [])).
Definition not_json : response := mkResponse 500 None.
Definition three_versions : response :=
  mkResponse 200 (Some (VDict [("versions", VList [VStr "v3"; VStr "v2"; VStr "v1"])])).
Definition deployed : response :=
  mkResponse 200 (Some (VDict [("deploymentId", VStr "d1")])).
Definition created : response := mkResponse 201 (Some (VDict [])).

Definition reply (r : response) : transport := fun _ => Ret r.

(** ** Vocabulary of the further statements *)

(** A text that quoting leaves alone: unreserved characters and slashes. *)
Definition plain_char (c : ascii) : bool :=
  Urllib.always_safe c || Text.is_slash c.

Definition plain (s : string) : bool := Text.forallb_string plain_char s.

(** The characters of a quoted key or value of a query. *)
Definition query_char (c : ascii) : bool :=
  Urllib.always_safe c || Ascii.eqb c "+"%char || Ascii.eqb c Text.percent.

Definition query_string_char (c : ascii) : bool :=
  query_char c || Ascii.eqb c "="%char || Ascii.eqb c "&"%char.

Definition is_object (v : value) : bool :=
  match v with VDict _ => true | _ => false end.

(** The operations that read the body of a success-coded answer:
    [add_app] and [remove_app] return at once. *)
Definition reads_success_body (c : call) : bool :=
  match c with
  | AddApp _ | RemoveApp _ _ => false
  | _ => true
  end.

(** The operations without a call of [logger.info]. *)
Definition logs_nothing (c : call) : bool :=
  match c with
  | GetApps | ScaleApp _ _ _ | SuspendApp _ _ | RemoveApp _ _ => true
  | _ => false
  end.

Definition is_info_record (l : log_record) : bool :=
  match level l with INFO => true | ERROR => false end.

Definition has_count (c : call) : bool :=
  match c with GetAppVersions _ (Some _) => true | _ => false end.

(** Further sample data. *)
Definition braced : Client := mkClient "{}" 8080.
Definition created_no_body : response := mkResponse 201 None.
Definition ok_not_json : response := mkResponse 200 None.
Definition error_list : response := mkResponse 500 (Some (VList [])).
Definition text_versions : response :=
  mkResponse 200 (Some (VDict [("versions", VInt 3)])).
Definition refusing : transport := fun _ => Raise RequestException.

(** * Properties *)

(** ** Text *)

Section TextFacts.
Import Text.

Lemma append_empty_r (s : string) : s ++ "" = s.
Proof. induction s as [|c s IH]; simpl; [reflexivity | now rewrite IH]. Qed.

Lemma append_assoc (a b c : string) : (a ++ b) ++ c = a ++ (b ++ c).
Proof. induction a as [|x a IH]; simpl; [reflexivity | now rewrite IH]. Qed.

Lemma append_is_empty (a b : string) : a ++ b = "" -> a = "" /\ b = "".
Proof. destruct a; simpl; [auto | discriminate]. Qed.

Lemma forallb_string_app p (a b : string) :
  forallb_string p (a ++ b) = forallb_string p a && forallb_string p b.
Proof.
  induction a as [|x a IH]; simpl; [reflexivity|].
  now rewrite IH, andb_assoc.
Qed.

Lemma last_char_app (a b : string) :
  b <> "" -> last_char (a ++ b) = last_char b.
Proof.
  intros Hb. induction a as [|x a IH]; simpl; [reflexivity|].
  destruct (a ++ b) eqn:E.
  - apply append_is_empty in E. now destruct E.
  - exact IH.
Qed.

Lemma is_slash_true (c : ascii) : is_slash c = true -> c = slash.
Proof. unfold is_slash. apply Ascii.eqb_eq. Qed.

Lemma is_slash_false (c : ascii) : is_slash c = false -> c <> slash.
Proof. unfold is_slash. apply Ascii.eqb_neq. Qed.

(** *** [lstrip] *)

Lemma lstrip_first (s : string) : first_char (lstrip_slash s) <> Some slash.
Proof.
  induction s as [|c s IH]; simpl; [discriminate|].
  destruct (is_slash c) eqn:E; [exact IH|].
  simpl. intros H. injection H as ->. discriminate E.
Qed.

Lemma lstrip_fixed (s : string) :
  first_char s <> Some slash -> lstrip_slash s = s.
Proof.
  destruct s as [|c s]; simpl; [reflexivity|].
  intros H. destruct (is_slash c) eqn:E; [|reflexivity].
  apply is_slash_true in E. now subst c.
Qed.

Lemma lstrip_slashes (p s : string) :
  forallb_string is_slash p = true -> lstrip_slash (p ++ s) = lstrip_slash s.
Proof.
  induction p as [|c p IH]; simpl; [reflexivity|].
  intros H. apply andb_true_iff in H as [Hc Hp]. rewrite Hc. auto.
Qed.

Lemma lstrip_all_slash (s : string) :
  forallb_string is_slash (lstrip_slash s) = forallb_string is_slash s.
Proof.
  induction s as [|c s IH]; simpl; [reflexivity|].
  destruct (is_slash c) eqn:E; simpl; [exact IH | now rewrite E].
Qed.

(** *** [rstrip] *)

Lemma rstrip_last (s : string) : last_char (rstrip_slash s) <> Some slash.
Proof.
  induction s as [|c s IH]; simpl; [discriminate|].
  destruct (is_slash c && is_empty (rstrip_slash s)) eqn:E; [discriminate|].
  simpl. destruct (rstrip_slash s) eqn:R; [|exact IH].
  simpl in E. rewrite andb_true_r in E.
  intros H. injection H as ->. discriminate E.
Qed.

Lemma rstrip_first (s : string) :
  rstrip_slash s = "" \/ first_char (rstrip_slash s) = first_char s.
Proof.
  destruct s as [|c s]; simpl; [now left|].
  destruct (is_slash c && is_empty (rstrip_slash s)); [now left | now right].
Qed.

Lemma rstrip_empty (s : string) :
  rstrip_slash s = "" <-> forallb_string is_slash s = true.
Proof.
  induction s as [|c s IH]; simpl; [tauto|].
  destruct (is_slash c) eqn:E; simpl.
  - destruct (rstrip_slash s) eqn:R; simpl.
    + split; [intros _; now apply IH | reflexivity].
    + split; [discriminate|]. intros H. apply IH in H. discriminate H.
  - split; discriminate.
Qed.

Lemma rstrip_slashes (s p : string) :
  forallb_string is_slash p = true -> rstrip_slash (s ++ p) = rstrip_slash s.
Proof.
  intros Hp. induction s as [|c s IH]; simpl.
  - now apply rstrip_empty.
  - now rewrite IH.
Qed.

Lemma rstrip_slash_free (s : string) :
  forallb_string (fun c => negb (is_slash c)) s = true -> rstrip_slash s = s.
Proof.
  induction s as [|c s IH]; simpl; [reflexivity|].
  intros H. apply andb_true_iff in H as [Hc Hs].
  apply negb_true_iff in Hc. rewrite Hc. simpl. now rewrite IH.
Qed.

Lemma rstrip_app_fixed (a b : string) :
  b <> "" -> rstrip_slash b = b -> rstrip_slash (a ++ b) = a ++ b.
Proof.
  intros Hb Fb. induction a as [|c a IH]; simpl; [exact Fb|].
  rewrite IH. destruct (a ++ b) eqn:E.
  - apply append_is_empty in E. now destruct E.
  - simpl. now rewrite andb_false_r.
Qed.

(** *** [strip] *)

Lemma strip_first (s : string) : first_char (strip_slash s) <> Some slash.
Proof.
  unfold strip_slash.
  destruct (rstrip_first (lstrip_slash s)) as [E|E]; rewrite E.
  - discriminate.
  - apply lstrip_first.
Qed.

Lemma strip_last (s : string) : last_char (strip_slash s) <> Some slash.
Proof. apply rstrip_last. Qed.

Lemma strip_empty (s : string) :
  strip_slash s = "" <-> forallb_string is_slash s = true.
Proof.
  unfold strip_slash. rewrite rstrip_empty. now rewrite lstrip_all_slash.
Qed.

(** Slashes around an identifier that neither starts nor ends with one
    are all that [strip] removes. *)
Lemma strip_surrounded (p s q : string) :
  forallb_string is_slash p = true ->
  forallb_string is_slash q = true ->
  first_char s <> Some slash ->
  rstrip_slash s = s ->
  strip_slash (p ++ s ++ q) = s.
Proof.
  intros Hp Hq Hf Hr. unfold strip_slash.
  rewrite lstrip_slashes by exact Hp.
  destruct s as [|c s].
  - simpl. apply rstrip_empty. now rewrite lstrip_all_slash.
  - rewrite lstrip_fixed.
    + rewrite rstrip_slashes by exact Hq. exact Hr.
    + exact Hf.
Qed.

End TextFacts.

(** ** Quoting *)

Section QuoteFacts.
Import Text Urllib.

Ltac each_byte b := destruct b as [[] [] [] [] [] [] [] []].

Lemma utf8_app (a b : string) : utf8 (a ++ b) = utf8 a ++ utf8 b.
Proof.
  induction a as [|c a IH]; simpl; [reflexivity|].
  now rewrite IH, append_assoc.
Qed.

Lemma quote_from_bytes_app safe (a b : string) :
  quote_from_bytes safe (a ++ b) = quote_from_bytes safe a ++ quote_from_bytes safe b.
Proof.
  induction a as [|c a IH]; simpl; [reflexivity|].
  now rewrite IH, append_assoc.
Qed.

Lemma quote_app (a b : string) : quote (a ++ b) = quote a ++ quote b.
Proof. unfold quote. now rewrite utf8_app, quote_from_bytes_app. Qed.

Lemma quote_cons (c : ascii) (s : string) :
  quote (String c s) = quote (String c "") ++ quote s.
Proof. exact (quote_app (String c "") s). Qed.

Lemma quote_slash (s : string) : quote (String slash s) = String slash (quote s).
Proof. rewrite quote_cons. reflexivity. Qed.

Lemma quote_empty (s : string) : quote s = "" <-> s = "".
Proof.
  split; [|intros ->; reflexivity].
  destruct s as [|c s]; [reflexivity|].
  rewrite quote_cons. intros H. apply append_is_empty in H as [H _].
  revert H. each_byte c; vm_compute; discriminate.
Qed.

(** One character, quoted: never empty, never starting with a slash unless
    it is the slash, never ending with one unless it is the slash. *)
Lemma quote_char_first (c : ascii) :
  c <> slash -> first_char (quote (String c "")) <> Some slash.
Proof.
  each_byte c; intros H; vm_compute; try discriminate;
    exfalso; apply H; reflexivity.
Qed.

Lemma quote_char_last (c : ascii) :
  c <> slash -> last_char (quote (String c "")) <> Some slash.
Proof.
  each_byte c; intros H; vm_compute; try discriminate;
    exfalso; apply H; reflexivity.
Qed.

Lemma first_char_app (a b : string) :
  a <> "" -> first_char (a ++ b) = first_char a.
Proof. destruct a; [now intros [] | reflexivity]. Qed.

Lemma quote_first (s : string) :
  first_char s <> Some slash -> first_char (quote s) <> Some slash.
Proof.
  destruct s as [|c s]; simpl; [intros _; vm_compute; discriminate|].
  intros H. rewrite quote_cons, first_char_app.
  - apply quote_char_first. intros ->. now apply H.
  - intros E. apply (proj1 (quote_empty _)) in E. discriminate E.
Qed.

Lemma quote_last (s : string) :
  last_char s <> Some slash -> last_char (quote s) <> Some slash.
Proof.
  induction s as [|c s IH]; [intros _; vm_compute; discriminate|].
  intros H. rewrite quote_cons. destruct s as [|d s].
  - rewrite append_empty_r. apply quote_char_last. intros ->. now apply H.
  - rewrite last_char_app.
    + apply IH. exact H.
    + intros E. apply (proj1 (quote_empty _)) in E. discriminate E.
Qed.

Lemma quote_byte_url_chars (b : ascii) :
  forallb_string url_char (quote_byte is_slash b) = true.
Proof. each_byte b; reflexivity. Qed.

Lemma quote_url_chars (s : string) : forallb_string url_char (quote s) = true.
Proof.
  unfold quote. induction (utf8 s) as [|b bs IH]; simpl; [reflexivity|].
  now rewrite forallb_string_app, quote_byte_url_chars, IH.
Qed.

Lemma unquote_quote_byte (b : ascii) (rest : string) :
  unquote_to_bytes (quote_byte is_slash b ++ rest) = String b (unquote_to_bytes rest).
Proof. each_byte b; reflexivity. Qed.

(** Reading the escapes back gives the bytes that were quoted. *)
Lemma unquote_quote (s : string) : unquote_to_bytes (quote s) = utf8 s.
Proof.
  unfold quote. induction (utf8 s) as [|b bs IH]; simpl; [reflexivity|].
  now rewrite unquote_quote_byte, IH.
Qed.

Lemma sanitize_unfold (app_id : string) :
  _sanitize_app_id app_id = String slash (quote (strip_slash app_id)).
Proof. unfold _sanitize_app_id. exact (quote_slash _). Qed.

End QuoteFacts.

(** ** The sanitizer *)

Section Sanitizer.
Import Text Urllib.

Lemma strip_slashes_around (p s q : string) :
  forallb_string is_slash p = true ->
  forallb_string is_slash q = true ->
  strip_slash (p ++ s ++ q) = strip_slash s.
Proof.
  intros Hp Hq. unfold strip_slash. rewrite lstrip_slashes by exact Hp.
  induction s as [|c s IH]; simpl.
  - apply rstrip_empty. now rewrite lstrip_all_slash.
  - destruct (is_slash c) eqn:E; [exact IH|].
    exact (rstrip_slashes (String c s) q Hq).
Qed.

Lemma segment_first (s : string) (rest : string) :
  is_segment s = true -> first_char (s ++ rest) <> Some slash.
Proof.
  destruct s as [|c s]; [discriminate|].
  unfold is_segment, slash_free. simpl. intros H.
  apply andb_true_iff in H as [H _]. apply negb_true_iff in H.
  intros E. injection E as ->. discriminate H.
Qed.

Lemma join_segments_first (segs : list string) :
  segs <> [] -> forallb is_segment segs = true ->
  first_char (join "/" segs) <> Some slash.
Proof.
  destruct segs as [|s rest]; [now intros []|].
  intros _ H. simpl in H. apply andb_true_iff in H as [Hs _].
  destruct rest as [|t rest].
  - rewrite <- (append_empty_r s). now apply segment_first.
  - now apply segment_first.
Qed.

Lemma join_segments_rstrip (segs : list string) :
  segs <> [] -> forallb is_segment segs = true ->
  join "/" segs <> "" /\ rstrip_slash (join "/" segs) = join "/" segs.
Proof.
  induction segs as [|s rest IH]; [now intros []|].
  intros _ H. simpl in H. apply andb_true_iff in H as [Hs Hrest].
  apply andb_true_iff in Hs as [Hne Hfree].
  destruct rest as [|t rest].
  - simpl. split.
    + destruct s; [discriminate Hne | discriminate].
    + now apply rstrip_slash_free.
  - destruct IH as [IH1 IH2]; [discriminate | exact Hrest |].
    change (join "/" (s :: t :: rest)) with (s ++ "/" ++ join "/" (t :: rest)).
    split.
    + destruct s; [discriminate Hne | discriminate].
    + rewrite <- append_assoc. apply rstrip_app_fixed; assumption.
Qed.

Lemma quote_join (segs : list string) :
  quote (join "/" segs) = join "/" (map quote segs).
Proof.
  induction segs as [|s rest IH]; [reflexivity|].
  destruct rest as [|t rest]; [reflexivity|].
  change (join "/" (s :: t :: rest)) with (s ++ "/" ++ join "/" (t :: rest)).
  rewrite quote_app, (quote_app "/"), IH. reflexivity.
Qed.

Lemma quote_char_slash_free (c : ascii) :
  c <> slash -> slash_free (quote (String c "")) = true.
Proof.
  destruct c as [[] [] [] [] [] [] [] []]; intros H; vm_compute;
    try reflexivity; exfalso; apply H; reflexivity.
Qed.

Lemma quote_slash_free (s : string) :
  slash_free s = true -> slash_free (quote s) = true.
Proof.
  unfold slash_free. induction s as [|c s IH]; [reflexivity|].
  simpl. intros H. apply andb_true_iff in H as [Hc Hs].
  rewrite quote_cons, forallb_string_app, IH by exact Hs.
  rewrite andb_true_r. apply quote_char_slash_free.
  apply is_slash_false. now apply negb_true_iff.
Qed.

(** C4, as the code has it: the sanitized identifier starts with one slash and
    no second one; it does not end with a slash unless it is the lone slash,
    which is what an identifier made of slashes only (the empty one
    included) comes to; slashes added around an identifier change nothing;
    the result is made of unreserved characters, slashes and percent
    escapes, and reading the escapes back gives the UTF-8 bytes of the
    slash followed by the stripped identifier. *)
Theorem sanitize_app_id_shape (app_id : string) :
  (exists t, _sanitize_app_id app_id = String slash t /\ first_char t <> Some slash)
  /\ (_sanitize_app_id app_id = "/"
      \/ last_char (_sanitize_app_id app_id) <> Some slash)
  /\ (_sanitize_app_id app_id = "/" <-> forallb_string is_slash app_id = true)
  /\ (forall p q, forallb_string is_slash p = true -> forallb_string is_slash q = true ->
        _sanitize_app_id (p ++ app_id ++ q) = _sanitize_app_id app_id)
  /\ forallb_string url_char (_sanitize_app_id app_id) = true
  /\ unquote_to_bytes (_sanitize_app_id app_id) = utf8 ("/" ++ strip_slash app_id).
Proof.
  repeat split.
  - exists (quote (strip_slash app_id)). split; [apply sanitize_unfold|].
    apply quote_first, strip_first.
  - rewrite sanitize_unfold. destruct (quote (strip_slash app_id)) eqn:E.
    + now left.
    + right. change (last_char (String a s) <> Some slash).
      rewrite <- E. apply quote_last, strip_last.
  - rewrite sanitize_unfold. intros H. injection H as H.
    apply strip_empty. now apply quote_empty.
  - intros H. apply strip_empty in H. rewrite sanitize_unfold, H. reflexivity.
  - intros p q Hp Hq. unfold _sanitize_app_id.
    now rewrite strip_slashes_around.
  - apply quote_url_chars.
  - apply unquote_quote.
Qed.

(** C4, as the claim has it, at the identifier of three slashes: the result
    is the lone slash, so it ends with one. *)
Lemma sanitize_slashes_only_trailing :
  _sanitize_app_id "///" = "/"
  /\ last_char (_sanitize_app_id "///") = Some slash.
Proof. split; reflexivity. Qed.

(** C10: an identifier made of segments joined by slashes, with any number
    of slashes around it, is sanitized to the slash followed by the quoted
    segments joined by literal slashes; no quoted segment holds a slash of
    its own. *)
Theorem sanitize_keeps_interior_slashes (segs : list string) (p q : string) :
  segs <> [] ->
  forallb is_segment segs = true ->
  forallb_string is_slash p = true ->
  forallb_string is_slash q = true ->
  _sanitize_app_id (p ++ join "/" segs ++ q) = "/" ++ join "/" (map quote segs)
  /\ forallb slash_free (map quote segs) = true.
Proof.
  intros Hne Hseg Hp Hq. split.
  - rewrite sanitize_unfold, strip_surrounded, quote_join; try assumption.
    + reflexivity.
    + now apply join_segments_first.
    + now apply join_segments_rstrip.
  - clear Hne. induction segs as [|s rest IH]; [reflexivity|].
    simpl in *. apply andb_true_iff in Hseg as [Hs Hrest].
    apply andb_true_iff in Hs as [_ Hs].
    now rewrite quote_slash_free, IH.
Qed.

(** The identifier [//a b/c/]. *)
Lemma sanitize_keeps_interior_slashes_witness :
  _sanitize_app_id ("//" ++ join "/" ["a b"; "c"] ++ "/") = "/a%20b/c".
Proof.
  apply (sanitize_keeps_interior_slashes ["a b"; "c"] "//" "/");
    [discriminate | reflexivity | reflexivity | reflexivity].
Defined.

End Sanitizer.

(** ** URLs *)

Section UrlFacts.
Import Text Urllib Format.

Lemma brace_free_app (a b : string) :
  brace_free (a ++ b) = brace_free a && brace_free b.
Proof. apply forallb_string_app. Qed.

Lemma literal_text_brace_free (s : string) :
  brace_free s = true -> literal_text s = Some s.
Proof.
  unfold brace_free. induction s as [|c s IH]; simpl; [reflexivity|].
  intros H. apply andb_true_iff in H as [Hc Hs].
  apply negb_true_iff in Hc. rewrite Hc, IH by exact Hs. reflexivity.
Qed.

Lemma forallb_string_impl (p p' : ascii -> bool) (s : string) :
  (forall c, p c = true -> p' c = true) ->
  forallb_string p s = true -> forallb_string p' s = true.
Proof.
  intros Himp. induction s as [|c s IH]; simpl; [reflexivity|].
  intros H. apply andb_true_iff in H as [Hc Hs].
  now rewrite (Himp c Hc), IH.
Qed.

Lemma url_char_no_brace (c : ascii) : url_char c = true -> negb (is_brace c) = true.
Proof. destruct c as [[] [] [] [] [] [] [] []]; vm_compute; intros H; congruence. Qed.

Lemma brace_free_quote (s : string) : brace_free (quote s) = true.
Proof.
  apply (forallb_string_impl url_char); [apply url_char_no_brace|].
  apply quote_url_chars.
Qed.

Lemma brace_free_uint (d : Decimal.uint) :
  brace_free (NilEmpty.string_of_uint d) = true.
Proof. induction d; simpl; auto. Qed.

Lemma brace_free_str_of_int (n : Z) : brace_free (str_of_int n) = true.
Proof.
  unfold str_of_int, NilZero.string_of_int, NilZero.string_of_uint.
  destruct (Z.to_int n) as [d|d]; destruct d; try reflexivity;
    match goal with
    | |- brace_free (String _ (NilEmpty.string_of_uint ?u)) = true =>
        exact (brace_free_uint u)
    | |- brace_free (NilEmpty.string_of_uint ?u) = true =>
        exact (brace_free_uint u)
    end.
Qed.

Lemma brace_free_app_url (self : Client) (app_id : string) :
  brace_free (_host self) = true ->
  brace_free (url_pattern self ("v2/apps" ++ _sanitize_app_id app_id)) = true.
Proof.
  intros H. unfold url_pattern, _sanitize_app_id.
  rewrite !brace_free_app, H, brace_free_str_of_int, brace_free_quote.
  reflexivity.
Qed.

Lemma create_url_plain (self : Client) (path : string) :
  _create_url self path None = Ret (url_pattern self path).
Proof. reflexivity. Qed.

Lemma create_url_force (self : Client) (path : string) (f : option bool) :
  _create_url self path
    (if match f with Some b => b | None => false end
     then Some [("force", VBool true)] else None)
  = _create_url self path (force_params f).
Proof. destruct f as [[|]|]; reflexivity. Qed.

Lemma create_url_forced (self : Client) (app_id : string) :
  brace_free (_host self) = true ->
  _create_url self ("v2/apps" ++ _sanitize_app_id app_id)
    (Some [("force", VBool true)])
  = Ret (url_pattern self ("v2/apps" ++ _sanitize_app_id app_id) ++ "?force=True").
Proof.
  intros H. unfold _create_url, format_query.
  rewrite literal_text_brace_free by now apply brace_free_app_url.
  reflexivity.
Qed.

End UrlFacts.

(** ** The operations *)

Section Operations.

#[local] Arguments url_pattern : simpl never.
#[local] Arguments _sanitize_app_id : simpl never.
#[local] Arguments _create_url : simpl never.
#[local] Arguments String.append : simpl never.
#[local] Arguments Z.eqb : simpl never.
#[local] Arguments Py.str : simpl never.
#[local] Arguments Py.lookup : simpl never.

Ltac unfold_ops :=
  unfold run, suspend_app, get_app, get_app_versions, get_apps, add_app,
    scale_app, remove_app, _response_to_error, bind, lift, ret, send, log,
    response_json, subscript, dict_get, slice, json_load, pair_of in *.

(** The request of a forced call exists only if the URL could be built. *)
Ltac split_request H :=
  match type of H with
  | match ?u with Ret _ => _ | Raise _ => _ end = Ret _ =>
      let U := fresh "U" in destruct u eqn:U; [|discriminate H]
  | _ => idtac
  end.

(** Runs a call up to the status test, given the request [Hq] it sends,
    the answer [Hnet] to it and the outcome [S] of the status test. *)
Ltac run_call c Hq Hnet S :=
  destruct c as [? [?|] | ? [?|] | | [? | [?|]] | ? ? ? | ? ? | ? ?];
  simpl in Hq, S; try discriminate Hq; split_request Hq;
  injection Hq as <-;
  unfold_ops; rewrite ?create_url_force, ?create_url_plain; simpl;
  repeat match goal with U : _create_url _ _ _ = _ |- _ => rewrite U; clear U end;
  simpl; rewrite Hnet; simpl.

(** What follows the answer puts nothing more on the wire. *)
Ltac after_answer :=
  repeat match goal with
  | |- context [match ?n ?q with Ret _ => _ | Raise _ => _ end] =>
      destruct (n q); simpl
  | |- context [if status_code ?r =? ?k then _ else _] =>
      destruct (status_code r =? k); simpl
  | |- context [match json ?r with Some _ => _ | None => _ end] =>
      destruct (json r) as [[]|]; simpl
  | |- context [match Py.lookup ?k ?d with Some _ => _ | None => _ end] =>
      destruct (Py.lookup k d); simpl
  | |- context [if Py.is_none ?m then _ else _] =>
      destruct (Py.is_none m); simpl
  | |- context [match ?k with Some _ => _ | None => _ end] =>
      is_var k; destruct k; simpl
  | |- context [match ?v with
                | VNone => _ | VBool _ => _ | VInt _ => _
                | VStr _ => _ | VList _ => _ | VDict _ => _
                end] =>
      is_var v; destruct v; simpl
  end.

(** X1: each call puts exactly one request on the wire, the one
    [the_request] names, whatever the answer; a call that cannot build its
    request raises and sends nothing. *)
Lemma run_sends_the_request (net : transport) (self : Client) (c : call)
    (w : world) :
  match the_request self c with
  | Ret q => sent (snd (run net self c w)) = (sent w ++ [q])%list
  | Raise e =>
      fst (run net self c w) = Raise e /\ sent (snd (run net self c w)) = sent w
  end.
Proof.
  destruct c as [a [v|] | a [k|] | | [v | [v|]] | a n f | a f | a f]; simpl;
    try (destruct (_create_url self _ (force_params f)) eqn:U);
    unfold_ops; rewrite ?create_url_force, ?create_url_plain; simpl;
    rewrite ?U; simpl; try (split; reflexivity);
    after_answer; reflexivity.
Qed.

Lemma error_records_app (l1 l2 : list log_record) (s : list request) :
  error_records (mkWorld (l1 ++ l2) s)
  = (error_records (mkWorld l1 s) ++ filter is_error_record l2)%list.
Proof. unfold error_records. simpl. apply filter_app. Qed.

(** C1, as the code has it: when the body of the response is a JSON object
    that, on the success status, holds a value other than null under the
    key the operation reads (one that can be sliced, for [get_app_versions]
    with a count), the call returns; a pair then has exactly one of its
    two components, and the error is absent exactly on the success
    status. *)
Theorem result_is_either_or (net : transport) (self : Client) (c : call)
    (w : world) (q : request) (r : response) (d : list (string * value)) :
  the_request self c = Ret q ->
  net q = Ret r ->
  json r = Some (VDict d) ->
  (status_code r = success_code c -> carries c d = true) ->
  exists res,
    fst (run net self c w) = Ret res
    /\ either_or res
    /\ (error_of res = None <-> status_code r = success_code c).
Proof.
  intros Hq Hnet Hjson Hfield.
  destruct (status_code r =? success_code c) eqn:S.
  - pose proof (proj1 (Z.eqb_eq _ _) S) as Heq.
    specialize (Hfield Heq). unfold carries in Hfield.
    run_call c Hq Hnet S; simpl in Hfield, Heq;
      rewrite ?Hjson; simpl; rewrite S; simpl; rewrite ?Hjson; simpl.
    all: try (destruct (Py.lookup _ d) as [x|] eqn:L;
              [|discriminate Hfield]; simpl).
    all: try (destruct x; try discriminate Hfield; simpl).
    all: eexists; (split; [reflexivity|]); simpl;
      (split; [first [exact I | left; split; [discriminate|reflexivity]] | tauto]).
  - assert (Hne : status_code r <> success_code c) by (now apply Z.eqb_neq).
    clear Hfield.
    run_call c Hq Hnet S; simpl in Hne;
      rewrite ?Hjson; simpl; rewrite S; simpl; rewrite ?Hjson; simpl.
    all: destruct (Py.lookup "message" d) as [m|] eqn:L; simpl.
    all: try (destruct (Py.is_none m); simpl).
    all: eexists; (split; [reflexivity|]); simpl;
      (split; [first [exact I | right; split; [reflexivity|discriminate]]
              | split; [discriminate | intros E; now elim Hne]]).
Qed.

(** [get_app] on a 200 answer that holds an application. *)
Lemma result_is_either_or_witness :
  exists res,
    fst (run (reply app_found) marathon (GetApp "x" None) w0) = Ret res
    /\ either_or res
    /\ (error_of res = None <-> status_code app_found = success_code (GetApp "x" None)).
Proof.
  apply (result_is_either_or (reply app_found) marathon (GetApp "x" None) w0
           (mkRequest GET (url_pattern marathon ("v2/apps" ++ _sanitize_app_id "x")) None)
           app_found [("app", VDict [("id", VStr "/x")])]);
    [reflexivity | reflexivity | reflexivity | intros _; reflexivity].
Defined.

(** C1, as the claim has it, at a 200 answer whose body is the object with
    a null [app]: [get_app] returns the pair of two [None]. *)
Lemma get_app_null_app_both_absent :
  fst (run (reply app_null) marathon (GetApp "x" None) w0) = Ret (Pair VNone None)
  /\ ~ either_or (Pair VNone None).
Proof.
  split; [reflexivity|].
  intros [[H _]|[_ H]]; now apply H.
Qed.

(** C2, as the code has it: a success-coded answer whose JSON object lacks
    the key the operation reads makes the call raise [KeyError]; an
    error-coded answer whose body is not JSON makes it raise [ValueError];
    in neither case is anything logged at error level. *)
Theorem malformed_response_raises (net : transport) (self : Client) (c : call)
    (w : world) (q : request) (r : response) :
  the_request self c = Ret q ->
  net q = Ret r ->
  (forall d f,
      status_code r = success_code c -> json r = Some (VDict d) ->
      expected_field c = Some f -> Py.lookup f d = None ->
      fst (run net self c w) = Raise KeyError
      /\ error_records (snd (run net self c w)) = error_records w)
  /\ (status_code r <> success_code c -> json r = None ->
      fst (run net self c w) = Raise ValueError
      /\ error_records (snd (run net self c w)) = error_records w).
Proof.
  intros Hq Hnet. split.
  - intros d f Heq Hjson Hf L.
    pose proof (proj2 (Z.eqb_eq _ _) Heq) as S.
    run_call c Hq Hnet S; simpl in Hf; try discriminate Hf;
      injection Hf as <-;
      rewrite ?Hjson; simpl; rewrite S; simpl; rewrite ?Hjson; simpl;
      rewrite L; simpl; rewrite ?error_records_app; simpl;
      rewrite ?app_nil_r; destruct w; split; reflexivity.
  - intros Hne Hjson.
    pose proof (proj2 (Z.eqb_neq _ _) Hne) as S.
    run_call c Hq Hnet S;
      rewrite ?Hjson; simpl; rewrite ?S; simpl; rewrite ?Hjson; simpl;
      rewrite ?error_records_app; simpl;
      rewrite ?app_nil_r; destruct w; split; reflexivity.
Qed.

(** [get_apps] on an empty object, and on a body that is not JSON. *)
Lemma malformed_response_raises_witness :
  fst (run (reply empty_object) marathon GetApps w0) = Raise KeyError
  /\ fst (run (reply not_json) marathon GetApps w0) = Raise ValueError.
Proof.
  split.
  - apply (proj1 (malformed_response_raises (reply empty_object) marathon GetApps w0
                    (mkRequest GET (url_pattern marathon "v2/apps") None)
                    empty_object eq_refl eq_refl)
             [] "apps"); reflexivity.
  - apply (proj2 (malformed_response_raises (reply not_json) marathon GetApps w0
                    (mkRequest GET (url_pattern marathon "v2/apps") None)
                    not_json eq_refl eq_refl));
      [discriminate | reflexivity].
Defined.

(** C2, as the claim has it: [get_apps] on a 200 answer without [apps], and
    on a 500 answer that is not JSON, hands back no error value at all. *)
Lemma get_apps_malformed_not_degraded :
  fst (run (reply empty_object) marathon GetApps w0) = Raise KeyError
  /\ fst (run (reply not_json) marathon GetApps w0) = Raise ValueError
  /\ forall e, fst (run (reply empty_object) marathon GetApps w0)
               <> Ret (failure GetApps e).
Proof. repeat split; try reflexivity. intros e H. discriminate H. Qed.

(** C3, as the code has it: on a status other than the success status and a
    JSON object as body, a [message] other than null comes back as the
    error ["Error: "] followed by its text, and nothing is logged at error
    level; a [message] that is missing or null comes back as the error
    ["Unknown error from Marathon"], and one record is logged at error
    level, with the body. *)
Theorem error_translation (net : transport) (self : Client) (c : call)
    (w : world) (q : request) (r : response) (d : list (string * value)) :
  the_request self c = Ret q ->
  net q = Ret r ->
  status_code r <> success_code c ->
  json r = Some (VDict d) ->
  (forall m, Py.lookup "message" d = Some m -> m <> VNone ->
     fst (run net self c w) = Ret (failure c (mkError ("Error: " ++ Py.str m)))
     /\ error_records (snd (run net self c w)) = error_records w)
  /\ (Py.lookup "message" d = None \/ Py.lookup "message" d = Some VNone ->
     fst (run net self c w)
       = Ret (failure c (mkError "Unknown error from Marathon"))
     /\ error_records (snd (run net self c w))
        = (error_records w ++ [no_message_record (VDict d)])%list).
Proof.
  intros Hq Hnet Hne Hjson.
  pose proof (proj2 (Z.eqb_neq _ _) Hne) as S.
  split.
  - intros m L Hm.
    run_call c Hq Hnet S;
      rewrite ?Hjson; simpl; rewrite ?S; simpl; rewrite ?Hjson; simpl;
      rewrite L; simpl; (destruct m; [now elim Hm | ..]); simpl;
      rewrite ?error_records_app; simpl;
      rewrite ?app_nil_r; destruct w; split; reflexivity.
  - intros L.
    run_call c Hq Hnet S;
      rewrite ?Hjson; simpl; rewrite ?S; simpl; rewrite ?Hjson; simpl;
      (destruct L as [L|L]; rewrite L; simpl);
      rewrite ?error_records_app; simpl;
      rewrite ?app_nil_r; destruct w; split; reflexivity.
Qed.

(** [get_app] on the 404 answer of an unknown application. *)
Lemma error_translation_witness :
  fst (run (reply app_not_found) marathon (GetApp "x" None) w0)
  = Ret (Pair VNone (Some (mkError "Error: App not found"))).
Proof.
  apply (proj1 (error_translation (reply app_not_found) marathon (GetApp "x" None) w0
                  (mkRequest GET (url_pattern marathon ("v2/apps" ++ _sanitize_app_id "x"))
                     None)
                  app_not_found [("message", VStr "App not found")]
                  eq_refl eq_refl ltac:(discriminate) eq_refl)
           (VStr "App not found"));
    [reflexivity | discriminate].
Defined.

(** C3, as the claim has it, at a 404 answer whose body holds a null
    [message]: the field is there, and the error is the generic one, not
    ["Error: "] followed by the value. *)
Lemma null_message_is_generic :
  Py.lookup "message" [("message", VNone)] = Some VNone
  /\ fst (run (reply message_null) marathon (GetApp "x" None) w0)
     = Ret (Pair VNone (Some (mkError "Unknown error from Marathon")))
  /\ "Unknown error from Marathon" <> "Error: " ++ Py.str VNone.
Proof. repeat split; try reflexivity. discriminate. Qed.

(** C5: on a 200 answer with a JSON body, [get_app] without a version
    returns what the body holds under [app], and [get_app] with a version
    returns the body itself. *)
Theorem get_app_unwraps (net : transport) (self : Client) (app_id : string)
    (version : option string) (w : world) (q : request) (r : response)
    (body : value) :
  the_request self (GetApp app_id version) = Ret q ->
  net q = Ret r ->
  status_code r = 200 ->
  json r = Some body ->
  (version = None -> forall d app,
     body = VDict d -> Py.lookup "app" d = Some app ->
     fst (get_app net self app_id version w) = Ret (app, None))
  /\ (version <> None ->
     fst (get_app net self app_id version w) = Ret (body, None)).
Proof.
  intros Hq Hnet Hs Hjson.
  pose proof (proj2 (Z.eqb_eq _ _) Hs) as S.
  split.
  - intros -> d app -> L. simpl in Hq. injection Hq as <-.
    unfold_ops. rewrite create_url_plain. simpl.
    rewrite Hnet. simpl. rewrite Hjson. simpl. rewrite S. simpl.
    rewrite L. reflexivity.
  - intros Hv. destruct version as [v|]; [|now elim Hv].
    simpl in Hq. injection Hq as <-.
    unfold_ops. rewrite create_url_plain. simpl.
    rewrite Hnet. simpl. rewrite Hjson. simpl. rewrite S. reflexivity.
Qed.

(** [get_app] without a version, on a 200 answer. *)
Lemma get_app_unwraps_witness :
  fst (get_app (reply app_found) marathon "x" None w0)
  = Ret (VDict [("id", VStr "/x")], None).
Proof.
  apply (proj1 (get_app_unwraps (reply app_found) marathon "x" None w0
                  (mkRequest GET (url_pattern marathon ("v2/apps" ++ _sanitize_app_id "x"))
                     None)
                  app_found (VDict [("app", VDict [("id", VStr "/x")])])
                  eq_refl eq_refl eq_refl eq_refl)
           eq_refl [("app", VDict [("id", VStr "/x")])]);
    reflexivity.
Defined.

Lemma slice_to_prefix {A : Type} (l : list A) (k : Z) :
  exists s, l = (Py.slice_to l k ++ s)%list.
Proof.
  exists (skipn (Py.stop_index (List.length l) k) l).
  unfold Py.slice_to. symmetry. apply firstn_skipn.
Qed.

Lemma slice_to_length {A : Type} (l : list A) (k : Z) :
  Z.of_nat (List.length (Py.slice_to l k))
  = if 0 <=? k then Z.min k (Z.of_nat (List.length l))
    else Z.max 0 (Z.of_nat (List.length l) + k).
Proof.
  unfold Py.slice_to, Py.stop_index. rewrite length_firstn.
  destruct (0 <=? k) eqn:P.
  - apply Z.leb_le in P.
    destruct (k <? 0) eqn:N; [apply Z.ltb_lt in N; lia|]. lia.
  - apply Z.leb_gt in P.
    destruct (k <? 0) eqn:N; [|apply Z.ltb_ge in N; lia]. lia.
Qed.

(** C6, as the code has it: on a 200 answer whose body holds a list under
    [versions], [get_app_versions] returns a prefix of that list: all of
    it without a count, its first [min(k, len)] items for a count [k] that
    is not negative, and all but its last [-k] items ([max(0, len + k)] of
    them) for a negative [k]. *)
Theorem get_app_versions_prefix (net : transport) (self : Client)
    (app_id : string) (max_count : option Z) (w : world) (q : request)
    (r : response) (d : list (string * value)) (l : list value) :
  the_request self (GetAppVersions app_id max_count) = Ret q ->
  net q = Ret r ->
  status_code r = 200 ->
  json r = Some (VDict d) ->
  Py.lookup "versions" d = Some (VList l) ->
  exists p s,
    fst (get_app_versions net self app_id max_count w) = Ret (VList p, None)
    /\ l = (p ++ s)%list
    /\ match max_count with
       | None => p = l
       | Some k =>
           Z.of_nat (List.length p)
           = if 0 <=? k then Z.min k (Z.of_nat (List.length l))
             else Z.max 0 (Z.of_nat (List.length l) + k)
       end.
Proof.
  intros Hq Hnet Hs Hjson L.
  pose proof (proj2 (Z.eqb_eq _ _) Hs) as S.
  simpl in Hq. injection Hq as <-.
  unfold_ops. rewrite create_url_plain. simpl.
  rewrite Hnet. simpl. rewrite Hjson. simpl. rewrite S. simpl.
  destruct max_count as [k|]; simpl; rewrite L; simpl.
  - destruct (slice_to_prefix l k) as [s Hsplit].
    exists (Py.slice_to l k), s.
    split; [reflexivity|]. split; [exact Hsplit | apply slice_to_length].
  - exists l, []. split; [reflexivity|]. split; [now rewrite app_nil_r | reflexivity].
Qed.

(** The first two of three versions. *)
Lemma get_app_versions_prefix_witness :
  exists p s,
    fst (get_app_versions (reply three_versions) marathon "x" (Some 2) w0)
      = Ret (VList p, None)
    /\ [VStr "v3"; VStr "v2"; VStr "v1"] = (p ++ s)%list
    /\ Z.of_nat (List.length p) = 2.
Proof.
  apply (get_app_versions_prefix (reply three_versions) marathon "x" (Some 2) w0
           (mkRequest GET
              (url_pattern marathon ("v2/apps" ++ _sanitize_app_id "x" ++ "/versions"))
              None)
           three_versions
           [("versions", VList [VStr "v3"; VStr "v2"; VStr "v1"])]
           [VStr "v3"; VStr "v2"; VStr "v1"]);
    reflexivity.
Defined.

(** C6, as the claim has it, at the count -1 on three versions: the first
    two come back, and 2 is not [min(-1, 3)]. *)
Lemma negative_max_count_drops_last :
  fst (get_app_versions (reply three_versions) marathon "x" (Some (-1)) w0)
  = Ret (VList [VStr "v3"; VStr "v2"], None)
  /\ Z.of_nat (List.length [VStr "v3"; VStr "v2"]) <> Z.min (-1) 3.
Proof. split; [reflexivity | discriminate]. Qed.

(** C7, as the code has it: without [force], with [None] or with [False],
    [scale_app] puts one PUT and [remove_app] one DELETE on the wire, for
    the URL of the application and nothing after it; with [True], and a
    host free of braces, the URL is followed by [?force=True].  The PUT
    carries the number of instances. *)
Theorem force_query (net : transport) (self : Client) (app_id : string)
    (instances : Z) (force : option bool) (w : world) :
  let base := url_pattern self ("v2/apps" ++ _sanitize_app_id app_id) in
  let body := Some (VDict [("instances", VInt instances)]) in
  (force <> Some true ->
     sent (snd (scale_app net self app_id instances force w))
       = (sent w ++ [mkRequest PUT base body])%list
     /\ sent (snd (remove_app net self app_id force w))
       = (sent w ++ [mkRequest DELETE base None])%list)
  /\ (force = Some true -> Format.brace_free (_host self) = true ->
     sent (snd (scale_app net self app_id instances force w))
       = (sent w ++ [mkRequest PUT (base ++ "?force=True") body])%list
     /\ sent (snd (remove_app net self app_id force w))
       = (sent w ++ [mkRequest DELETE (base ++ "?force=True") None])%list).
Proof.
  intros base body. subst base body. split.
  - intros Hf.
    assert (Hp : force_params force = None)
      by (destruct force as [[|]|]; [now elim Hf | reflexivity | reflexivity]).
    split; unfold_ops; rewrite create_url_force, Hp, create_url_plain; simpl;
      after_answer; reflexivity.
  - intros -> Hb.
    split; unfold_ops; rewrite create_url_forced by exact Hb;
      simpl; after_answer; reflexivity.
Qed.

(** Forced calls on the local server. *)
Lemma force_query_witness :
  sent (snd (scale_app (reply deployed) marathon "x" 3 (Some true) w0))
    = (sent w0 ++ [mkRequest PUT
                     (url_pattern marathon ("v2/apps" ++ _sanitize_app_id "x")
                      ++ "?force=True")
                     (Some (VDict [("instances", VInt 3)]))])%list
  /\ sent (snd (remove_app (reply deployed) marathon "x" (Some true) w0))
    = (sent w0 ++ [mkRequest DELETE
                     (url_pattern marathon ("v2/apps" ++ _sanitize_app_id "x")
                      ++ "?force=True")
                     None])%list.
Proof.
  apply (proj2 (force_query (reply deployed) marathon "x" 3 (Some true) w0));
    reflexivity.
Defined.

(** C7, as the claim has it, at [scale_app(x, 3, force=True)]: the query is
    [force=True], with the capital of Python's [str(True)], and not
    [force=true]. *)
Lemma force_query_is_capitalised :
  sent (snd (scale_app (reply deployed) marathon "x" 3 (Some true) w0))
  = [mkRequest PUT "http://localhost:8080/v2/apps/x?force=True"
       (Some (VDict [("instances", VInt 3)]))]
  /\ "http://localhost:8080/v2/apps/x?force=True"
     <> "http://localhost:8080/v2/apps/x?force=true".
Proof. split; [reflexivity | discriminate]. Qed.

(** C8: [suspend_app] is [scale_app] to zero instances: the same request,
    the same result, the same log. *)
Theorem suspend_is_scale_to_zero (net : transport) (self : Client)
    (app_id : string) (force : option bool) (w : world) :
  suspend_app net self app_id force w = scale_app net self app_id 0 force w
  /\ the_request self (SuspendApp app_id force)
     = the_request self (ScaleApp app_id 0 force).
Proof. split; reflexivity. Qed.

(** C9: [add_app] on a readable source whose content is the JSON text of
    [v] does what it does on [v] itself; it posts [v] to [v2/apps], and it
    returns [None] exactly when the answer has status 201. *)
Theorem add_app_both_forms (net : transport) (self : Client) (v : value)
    (w : world) (r : response) :
  net (mkRequest POST (url_pattern self "v2/apps") (Some v)) = Ret r ->
  add_app net self (Readable (Some v)) w = add_app net self (Parsed v) w
  /\ sent (snd (add_app net self (Parsed v) w))
     = (sent w ++ [mkRequest POST (url_pattern self "v2/apps") (Some v)])%list
  /\ (fst (add_app net self (Parsed v) w) = Ret None <-> status_code r = 201).
Proof.
  intros Hnet. split; [reflexivity|].
  unfold_ops. rewrite create_url_plain. simpl. rewrite Hnet. simpl.
  destruct (status_code r =? 201) eqn:S; simpl.
  - apply Z.eqb_eq in S. split; [reflexivity | tauto].
  - apply Z.eqb_neq in S. split.
    + after_answer; reflexivity.
    + split; [|intros E; now elim S].
      after_answer; discriminate.
Qed.

(** A descriptor posted in both forms, answered with 201. *)
Lemma add_app_both_forms_witness :
  add_app (reply created) marathon (Readable (Some (VDict [("id", VStr "/x")]))) w0
  = add_app (reply created) marathon (Parsed (VDict [("id", VStr "/x")])) w0
  /\ sent (snd (add_app (reply created) marathon (Parsed (VDict [("id", VStr "/x")])) w0))
     = (sent w0 ++ [mkRequest POST (url_pattern marathon "v2/apps")
                      (Some (VDict [("id", VStr "/x")]))])%list
  /\ (fst (add_app (reply created) marathon (Parsed (VDict [("id", VStr "/x")])) w0)
      = Ret None <-> status_code created = 201).
Proof.
  apply (add_app_both_forms (reply created) marathon (VDict [("id", VStr "/x")]) w0
           created).
  reflexivity.
Defined.

End Operations.

(** * Further properties of the code *)

Section Identifiers.
Import Text Urllib.

Lemma rstrip_idempotent (s : string) : rstrip_slash (rstrip_slash s) = rstrip_slash s.
Proof.
  induction s as [|c s IH]; simpl; [reflexivity|].
  destruct (is_slash c && is_empty (rstrip_slash s)) eqn:E; [reflexivity|].
  simpl. now rewrite IH, E.
Qed.

Lemma lstrip_decompose (s : string) :
  exists p, forallb_string is_slash p = true /\ s = p ++ lstrip_slash s.
Proof.
  induction s as [|c s [p [Hp Hs]]]; [now exists ""|].
  simpl. destruct (is_slash c) eqn:E.
  - exists (String c p). simpl. rewrite E, Hp. split; [reflexivity|].
    now rewrite <- Hs.
  - now exists "".
Qed.

Lemma rstrip_decompose (s : string) :
  exists q, forallb_string is_slash q = true /\ s = rstrip_slash s ++ q.
Proof.
  induction s as [|c s [q [Hq Hs]]]; [now exists ""|].
  simpl. destruct (is_slash c && is_empty (rstrip_slash s)) eqn:E.
  - apply andb_true_iff in E as [Ec Ee].
    destruct (rstrip_slash s); [|discriminate Ee].
    exists (String c q). simpl in *. rewrite Ec, Hq. split; [reflexivity|].
    now rewrite <- Hs.
  - exists q. split; [exact Hq|]. simpl. now rewrite <- Hs.
Qed.

Lemma strip_fixed (s : string) : strip_slash (strip_slash s) = strip_slash s.
Proof.
  unfold strip_slash at 1. rewrite lstrip_fixed by apply strip_first.
  apply rstrip_idempotent.
Qed.

(** X16: the sanitizer takes nothing off an identifier but slashes at its two
    ends: the identifier is its stripped form between two runs of slashes,
    the result is the slash followed by the quoted stripped form, and the
    stripped form is sanitized to the same text. *)
Theorem sanitize_strips_only_slashes (app_id : string) :
  exists p q,
    forallb_string is_slash p = true
    /\ forallb_string is_slash q = true
    /\ app_id = p ++ strip_slash app_id ++ q
    /\ _sanitize_app_id app_id = "/" ++ quote (strip_slash app_id)
    /\ _sanitize_app_id (strip_slash app_id) = _sanitize_app_id app_id.
Proof.
  destruct (lstrip_decompose app_id) as [p [Hp Ep]].
  destruct (rstrip_decompose (lstrip_slash app_id)) as [q [Hq Eq]].
  exists p, q. split; [exact Hp|]. split; [exact Hq|]. split; [|split].
  - unfold strip_slash. now rewrite <- Eq.
  - apply sanitize_unfold.
  - unfold _sanitize_app_id. now rewrite strip_fixed.
Qed.

Lemma quote_plain_char (c : ascii) :
  plain_char c = true -> quote (String c "") = String c "".
Proof. destruct c as [[] [] [] [] [] [] [] []]; vm_compute; intros H; congruence. Qed.

Lemma quote_plain (s : string) : plain s = true -> quote s = s.
Proof.
  unfold plain. induction s as [|c s IH]; [reflexivity|].
  simpl. intros H. apply andb_true_iff in H as [Hc Hs].
  now rewrite quote_cons, quote_plain_char, IH.
Qed.

Lemma quote_char_length (c : ascii) : (1 <= String.length (quote (String c "")))%nat.
Proof. destruct c as [[] [] [] [] [] [] [] []]; vm_compute; lia. Qed.

Lemma length_append (a b : string) :
  String.length (a ++ b) = (String.length a + String.length b)%nat.
Proof. induction a as [|c a IH]; simpl; [reflexivity | now rewrite IH]. Qed.

Lemma quote_length (s : string) : (String.length s <= String.length (quote s))%nat.
Proof.
  induction s as [|c s IH]; [reflexivity|].
  rewrite quote_cons, length_append. simpl.
  pose proof (quote_char_length c). lia.
Qed.

Lemma quote_fixed_is_plain (s : string) : quote s = s -> plain s = true.
Proof.
  unfold plain. induction s as [|c s IH]; [reflexivity|].
  rewrite quote_cons. intros H. simpl.
  destruct (plain_char c) eqn:P.
  - rewrite quote_plain_char in H by exact P. injection H as H. now apply IH.
  - exfalso. revert P H.
    destruct c as [[] [] [] [] [] [] [] []]; vm_compute (plain_char _);
      intros P; try discriminate P; clear P;
      vm_compute (quote (String _ "")); cbn [append]; intros H;
      try discriminate H.
    injection H as H. pose proof (quote_length s) as L.
    rewrite <- H in L at 1. simpl in L. lia.
Qed.

Lemma rstrip_fixed_last (s : string) :
  last_char s <> Some slash -> rstrip_slash s = s.
Proof.
  induction s as [|c s IH]; [reflexivity|].
  intros H. simpl. destruct s as [|d s].
  - simpl. rewrite andb_true_r. destruct (is_slash c) eqn:E; [|reflexivity].
    apply is_slash_true in E. subst c. now elim H.
  - rewrite IH by exact H. simpl. now rewrite andb_false_r.
Qed.

Lemma strip_quoted (s : string) :
  strip_slash ("/" ++ quote (strip_slash s)) = quote (strip_slash s).
Proof.
  rewrite <- (append_empty_r (quote (strip_slash s))) at 1.
  apply (strip_surrounded "/" (quote (strip_slash s)) ""); try reflexivity.
  - apply quote_first, strip_first.
  - apply rstrip_fixed_last, quote_last, strip_last.
Qed.

Lemma plain_app (a b : string) : plain (a ++ b) = plain a && plain b.
Proof. apply forallb_string_app. Qed.

Lemma plain_quote_char (c : ascii) : plain (quote (String c "")) = plain_char c.
Proof. destruct c as [[] [] [] [] [] [] [] []]; reflexivity. Qed.

Lemma plain_quote (s : string) : plain (quote s) = plain s.
Proof.
  induction s as [|c s IH]; [reflexivity|].
  rewrite quote_cons, plain_app, plain_quote_char, IH. reflexivity.
Qed.

(** X17: sanitizing a sanitized identifier gives the same text exactly when
    the stripped identifier is made of unreserved characters and slashes
    (otherwise the percent signs are quoted again); such an identifier is
    sanitized to the slash followed by its stripped form, unchanged. *)
Theorem sanitize_twice (app_id : string) :
  (_sanitize_app_id (_sanitize_app_id app_id) = _sanitize_app_id app_id
   <-> plain (strip_slash app_id) = true)
  /\ (plain (strip_slash app_id) = true ->
      _sanitize_app_id app_id = "/" ++ strip_slash app_id).
Proof.
  split.
  - rewrite (sanitize_unfold (_sanitize_app_id app_id)).
    rewrite (sanitize_unfold app_id) at 1 2.
    change (String slash (quote (strip_slash app_id)))
      with ("/" ++ quote (strip_slash app_id)).
    rewrite strip_quoted. split.
    + intros H. injection H as H. apply quote_fixed_is_plain in H.
      now rewrite plain_quote in H.
    + intros H. rewrite (quote_plain (quote _)); [reflexivity|].
      now rewrite plain_quote.
  - intros H. rewrite sanitize_unfold, quote_plain by exact H. reflexivity.
Qed.

Lemma utf8_char_head (c : ascii) (x : string) :
  (let head s :=
     match s with
     | String b r =>
         if (N_of_ascii b <? 128)%N then Some (b, r)
         else match r with
              | String b2 r2 =>
                  Some (ascii_of_N ((N_of_ascii b - 192) * 64 + (N_of_ascii b2 - 128)), r2)
              | EmptyString => None
              end
     | EmptyString => None
     end in
   head (utf8_char c ++ x) = Some (c, x)).
Proof. destruct c as [[] [] [] [] [] [] [] []]; reflexivity. Qed.

Lemma utf8_injective (a b : string) : utf8 a = utf8 b -> a = b.
Proof.
  revert b. induction a as [|c a IH]; intros [|d b] H.
  - reflexivity.
  - exfalso. change ("" = utf8_char d ++ utf8 b) in H.
    pose proof (utf8_char_head d (utf8 b)) as E.
    cbv beta zeta in E. rewrite <- H in E. discriminate E.
  - exfalso. change (utf8_char c ++ utf8 a = "") in H.
    pose proof (utf8_char_head c (utf8 a)) as E.
    cbv beta zeta in E. rewrite H in E. discriminate E.
  - change (utf8_char c ++ utf8 a = utf8_char d ++ utf8 b) in H.
    pose proof (utf8_char_head c (utf8 a)) as E1.
    pose proof (utf8_char_head d (utf8 b)) as E2. cbv beta zeta in E1, E2.
    rewrite H in E1.
    rewrite E2 in E1. injection E1 as <- E. now rewrite (IH b (eq_sym E)).
Qed.

Lemma quote_injective (a b : string) : quote a = quote b -> a = b.
Proof.
  intros H. apply utf8_injective.
  now rewrite <- !unquote_quote, H.
Qed.

(** X18: two identifiers are sanitized to the same text exactly when they
    are the same up to slashes at their ends. *)
Theorem sanitize_injective (a b : string) :
  _sanitize_app_id a = _sanitize_app_id b <-> strip_slash a = strip_slash b.
Proof.
  rewrite !sanitize_unfold. split.
  - intros H. injection H as H. now apply quote_injective.
  - now intros ->.
Qed.

End Identifiers.

Section Urls.
Import Text Urllib Format.

Lemma brace_free_url (self : Client) (path : string) :
  brace_free (_host self) = true -> brace_free path = true ->
  brace_free (url_pattern self path) = true.
Proof.
  intros Hh Hp. unfold url_pattern.
  now rewrite !brace_free_app, Hh, brace_free_str_of_int, Hp.
Qed.

(** X13: with a host and a path free of braces, [_create_url] with query
    parameters returns the plain URL, a question mark and the encoded
    parameters; an empty dictionary still adds the question mark, and
    [None] adds nothing. *)
Theorem create_url_with_query (self : Client) (path : string)
    (query : list (string * value)) :
  brace_free (_host self) = true ->
  brace_free path = true ->
  _create_url self path (Some query)
    = Ret (url_pattern self path ++ "?" ++ urlencode query)
  /\ _create_url self path (Some []) = Ret (url_pattern self path ++ "?")
  /\ _create_url self path None = Ret (url_pattern self path).
Proof.
  intros Hh Hp.
  assert (L : literal_text (url_pattern self path) = Some (url_pattern self path))
    by now apply literal_text_brace_free, brace_free_url.
  unfold _create_url, format_query. rewrite L. repeat split.
Qed.

(** The local server, with a forced query. *)
Lemma create_url_with_query_witness :
  _create_url marathon "v2/apps" (Some [("force", VBool true)])
    = Ret (url_pattern marathon "v2/apps" ++ "?" ++ urlencode [("force", VBool true)])
  /\ _create_url marathon "v2/apps" (Some []) = Ret (url_pattern marathon "v2/apps" ++ "?")
  /\ _create_url marathon "v2/apps" None = Ret (url_pattern marathon "v2/apps").
Proof.
  apply (create_url_with_query marathon "v2/apps" [("force", VBool true)]);
    reflexivity.
Defined.

Lemma spaces_to_plus_app (a b : string) :
  spaces_to_plus (a ++ b) = spaces_to_plus a ++ spaces_to_plus b.
Proof. induction a as [|c a IH]; simpl; [reflexivity | now rewrite IH]. Qed.

Lemma quote_plus_byte_chars (b : ascii) :
  forallb_string query_char (spaces_to_plus (quote_byte is_space b)) = true.
Proof. destruct b as [[] [] [] [] [] [] [] []]; reflexivity. Qed.

Lemma quote_plus_chars (s : string) :
  forallb_string query_char (quote_plus s) = true.
Proof.
  unfold quote_plus. induction (utf8 s) as [|b bs IH]; [reflexivity|].
  simpl. now rewrite spaces_to_plus_app, forallb_string_app, quote_plus_byte_chars, IH.
Qed.

Lemma query_char_weaken (s : string) :
  forallb_string query_char s = true -> forallb_string query_string_char s = true.
Proof.
  apply forallb_string_impl. intros c H. unfold query_string_char.
  now rewrite H.
Qed.

(** X15: the query string [_create_url] appends is made of unreserved
    characters, plus signs, percent escapes, equal signs and ampersands;
    no key and no value holds an equal sign or an ampersand of its own. *)
Theorem urlencode_chars (query : list (string * value)) :
  forallb_string query_string_char (urlencode query) = true
  /\ (forall kv, In kv query ->
        forallb_string query_char (quote_plus (fst kv)) = true
        /\ forallb_string query_char (quote_plus (Py.str (snd kv))) = true).
Proof.
  split.
  - unfold urlencode. induction query as [|kv rest IH]; [reflexivity|].
    assert (P : forallb_string query_string_char
                  (quote_plus (fst kv) ++ "=" ++ quote_plus (Py.str (snd kv))) = true).
    { rewrite !forallb_string_app.
      rewrite (query_char_weaken (quote_plus (fst kv))),
        (query_char_weaken (quote_plus (Py.str (snd kv))))
        by apply quote_plus_chars.
      reflexivity. }
    destruct rest as [|kv' rest]; [exact P|].
    change (forallb_string query_string_char
              ((quote_plus (fst kv) ++ "=" ++ quote_plus (Py.str (snd kv)))
               ++ "&" ++ join "&" (map (fun kv0 => quote_plus (fst kv0) ++ "="
                                          ++ quote_plus (Py.str (snd kv0))) (kv' :: rest)))
            = true).
    rewrite forallb_string_app, P. exact IH.
  - intros kv _. split; apply quote_plus_chars.
Qed.
End Urls.

Section Calls.

#[local] Arguments url_pattern : simpl never.
#[local] Arguments _sanitize_app_id : simpl never.
#[local] Arguments _create_url : simpl never.
#[local] Arguments String.append : simpl never.
#[local] Arguments Z.eqb : simpl never.
#[local] Arguments Py.str : simpl never.
#[local] Arguments Py.lookup : simpl never.

Ltac open_ops :=
  unfold run, suspend_app, get_app, get_app_versions, get_apps, add_app,
    scale_app, remove_app, _response_to_error, bind, lift, ret, send, log,
    response_json, subscript, dict_get, slice, json_load, pair_of in *.

Ltac built H :=
  match type of H with
  | match ?u with Ret _ => _ | Raise _ => _ end = Ret _ =>
      let U := fresh "U" in destruct u eqn:U; [|discriminate H]
  | _ => idtac
  end.

(** Runs a call up to the answer to the request [Hq] it sends. *)
Ltac call_up_to_answer c Hq :=
  destruct c as [? [?|] | ? [?|] | | [? | [?|]] | ? ? ? | ? ? | ? ?];
  simpl in Hq; try discriminate Hq; built Hq;
  injection Hq as <-;
  open_ops; rewrite ?create_url_force, ?create_url_plain; simpl;
  repeat match goal with U : _create_url _ _ _ = _ |- _ => rewrite U; clear U end;
  simpl.

Ltac cases :=
  repeat match goal with
  | |- context [match ?n ?q with Ret _ => _ | Raise _ => _ end] =>
      destruct (n q); simpl
  | |- context [if status_code ?r =? ?k then _ else _] =>
      destruct (status_code r =? k); simpl
  | |- context [match json ?r with Some _ => _ | None => _ end] =>
      destruct (json r) as [[]|]; simpl
  | |- context [match Py.lookup ?k ?d with Some _ => _ | None => _ end] =>
      destruct (Py.lookup k d); simpl
  | |- context [if Py.is_none ?m then _ else _] =>
      destruct (Py.is_none m); simpl
  | |- context [match ?k with Some _ => _ | None => _ end] =>
      is_var k; destruct k; simpl
  | |- context [match ?v with
                | VNone => _ | VBool _ => _ | VInt _ => _
                | VStr _ => _ | VList _ => _ | VDict _ => _
                end] =>
      is_var v; destruct v; simpl
  end.

(** X2: when [requests] raises instead of answering, the call raises the
    same exception: it has sent its one request and logged nothing at
    error level. *)
Theorem transport_fault_propagates (net : transport) (self : Client) (c : call)
    (w : world) (q : request) (e : exn) :
  the_request self c = Ret q ->
  net q = Raise e ->
  fst (run net self c w) = Raise e
  /\ sent (snd (run net self c w)) = (sent w ++ [q])%list
  /\ error_records (snd (run net self c w)) = error_records w.
Proof.
  intros Hq Hnet.
  call_up_to_answer c Hq; rewrite Hnet; simpl;
    rewrite ?error_records_app; simpl; rewrite ?app_nil_r;
    destruct w; repeat split.
Qed.

(** [get_apps] against a server that refuses the connection. *)
Lemma transport_fault_propagates_witness :
  fst (run refusing marathon GetApps w0) = Raise RequestException
  /\ sent (snd (run refusing marathon GetApps w0))
     = (sent w0 ++ [mkRequest GET (url_pattern marathon "v2/apps") None])%list
  /\ error_records (snd (run refusing marathon GetApps w0)) = error_records w0.
Proof.
  apply (transport_fault_propagates refusing marathon GetApps w0
           (mkRequest GET (url_pattern marathon "v2/apps") None) RequestException);
    reflexivity.
Defined.

(** X5: on their success status [add_app] and [remove_app] return [None]
    without reading the body, which need not be JSON. *)
Theorem success_ignores_body (net : transport) (self : Client) (c : call)
    (w : world) (q : request) (r : response) :
  the_request self c = Ret q ->
  net q = Ret r ->
  status_code r = success_code c ->
  reads_success_body c = false ->
  fst (run net self c w) = Ret (Single None)
  /\ error_records (snd (run net self c w)) = error_records w.
Proof.
  intros Hq Hnet Hs Hc.
  pose proof (proj2 (Z.eqb_eq _ _) Hs) as S.
  call_up_to_answer c Hq; try discriminate Hc; simpl in S;
    rewrite Hnet; simpl; rewrite S; simpl;
    rewrite ?error_records_app; simpl; rewrite ?app_nil_r;
    destruct w; repeat split.
Qed.

(** [add_app] answered with 201 and a body that is not JSON. *)
Lemma success_ignores_body_witness :
  fst (run (reply created_no_body) marathon (AddApp (Parsed (VDict []))) w0)
    = Ret (Single None)
  /\ error_records (snd (run (reply created_no_body) marathon
                           (AddApp (Parsed (VDict []))) w0))
     = error_records w0.
Proof.
  apply (success_ignores_body (reply created_no_body) marathon
           (AddApp (Parsed (VDict []))) w0
           (mkRequest POST (url_pattern marathon "v2/apps") (Some (VDict [])))
           created_no_body);
    reflexivity.
Defined.

(** X6: every other operation reads the body of a success-coded answer,
    and raises [ValueError] when it is not JSON. *)
Theorem success_needs_json (net : transport) (self : Client) (c : call)
    (w : world) (q : request) (r : response) :
  the_request self c = Ret q ->
  net q = Ret r ->
  status_code r = success_code c ->
  reads_success_body c = true ->
  json r = None ->
  fst (run net self c w) = Raise ValueError.
Proof.
  intros Hq Hnet Hs Hc Hjson.
  pose proof (proj2 (Z.eqb_eq _ _) Hs) as S.
  call_up_to_answer c Hq; try discriminate Hc; simpl in S;
    rewrite Hnet; simpl; rewrite ?Hjson; simpl; rewrite ?S; simpl;
    rewrite ?Hjson; reflexivity.
Qed.

(** [get_apps] answered with 200 and a body that is not JSON. *)
Lemma success_needs_json_witness :
  fst (run (reply ok_not_json) marathon GetApps w0) = Raise ValueError.
Proof.
  apply (success_needs_json (reply ok_not_json) marathon GetApps w0
           (mkRequest GET (url_pattern marathon "v2/apps") None) ok_not_json);
    reflexivity.
Defined.

(** X7: a JSON body that is not an object makes the call raise:
    [AttributeError] on a status other than the success status (the body
    has no [get]), [TypeError] on the success status when the operation
    reads a key. *)
Theorem non_object_body_raises (net : transport) (self : Client) (c : call)
    (w : world) (q : request) (r : response) (v : value) :
  the_request self c = Ret q ->
  net q = Ret r ->
  json r = Some v ->
  is_object v = false ->
  (status_code r <> success_code c ->
     fst (run net self c w) = Raise AttributeError)
  /\ (status_code r = success_code c -> expected_field c <> None ->
     fst (run net self c w) = Raise TypeError).
Proof.
  intros Hq Hnet Hjson Hv. split.
  - intros Hne. pose proof (proj2 (Z.eqb_neq _ _) Hne) as S.
    call_up_to_answer c Hq; simpl in S;
      rewrite Hnet; simpl; rewrite ?Hjson; simpl; rewrite ?S; simpl;
      rewrite ?Hjson; simpl; destruct v; try discriminate Hv; reflexivity.
  - intros Hs Hf. pose proof (proj2 (Z.eqb_eq _ _) Hs) as S.
    call_up_to_answer c Hq; simpl in S, Hf; try (now elim Hf);
      rewrite Hnet; simpl; rewrite ?Hjson; simpl; rewrite ?S; simpl;
      rewrite ?Hjson; simpl; destruct v; try discriminate Hv; reflexivity.
Qed.

(** [get_apps] answered with 500 and an empty JSON list. *)
Lemma non_object_body_raises_witness :
  fst (run (reply error_list) marathon GetApps w0) = Raise AttributeError.
Proof.
  apply (proj1 (non_object_body_raises (reply error_list) marathon GetApps w0
                  (mkRequest GET (url_pattern marathon "v2/apps") None)
                  error_list (VList []) eq_refl eq_refl eq_refl eq_refl)).
  discriminate.
Defined.

(** X4: on the success status and a JSON object that holds the key the
    operation reads, the call returns the value under that key, whatever
    it is, and no error -- [apps] for [get_apps], [deploymentId] for
    [scale_app] and [suspend_app] -- as long as no count is given. *)
Theorem success_value_unwrapped (net : transport) (self : Client) (c : call)
    (w : world) (q : request) (r : response) (d : list (string * value))
    (f : string) (x : value) :
  the_request self c = Ret q ->
  net q = Ret r ->
  status_code r = success_code c ->
  json r = Some (VDict d) ->
  expected_field c = Some f ->
  Py.lookup f d = Some x ->
  has_count c = false ->
  fst (run net self c w) = Ret (Pair x None).
Proof.
  intros Hq Hnet Hs Hjson Hf L Hc.
  pose proof (proj2 (Z.eqb_eq _ _) Hs) as S.
  call_up_to_answer c Hq; simpl in S, Hf; try discriminate Hf; try discriminate Hc;
    injection Hf as <-;
    rewrite Hnet; simpl; rewrite ?Hjson; simpl; rewrite ?S; simpl;
    rewrite ?Hjson; simpl; rewrite L; reflexivity.
Qed.

(** [scale_app] answered with a deployment. *)
Lemma success_value_unwrapped_witness :
  fst (run (reply deployed) marathon (ScaleApp "x" 3 None) w0)
  = Ret (Pair (VStr "d1") None).
Proof.
  apply (success_value_unwrapped (reply deployed) marathon (ScaleApp "x" 3 None) w0
           (mkRequest PUT (url_pattern marathon ("v2/apps" ++ _sanitize_app_id "x"))
              (Some (VDict [("instances", VInt 3)])))
           deployed [("deploymentId", VStr "d1")] "deploymentId" (VStr "d1"));
    reflexivity.
Defined.

(** X8: with a count, [get_app_versions] slices what the body holds under
    [versions]: a list or a text is cut, anything else raises [TypeError];
    without a count the same value is returned as it is. *)
Theorem counted_versions_must_slice (net : transport) (self : Client)
    (app_id : string) (k : Z) (w : world) (q : request) (r : response)
    (d : list (string * value)) (x : value) :
  the_request self (GetAppVersions app_id (Some k)) = Ret q ->
  net q = Ret r ->
  status_code r = 200 ->
  json r = Some (VDict d) ->
  Py.lookup "versions" d = Some x ->
  fst (get_app_versions net self app_id (Some k) w)
  = match x with
    | VList l => Ret (VList (Py.slice_to l k), None)
    | VStr s => Ret (VStr (Py.slice_str_to s k), None)
    | _ => Raise TypeError
    end
  /\ fst (get_app_versions net self app_id None w) = Ret (x, None).
Proof.
  intros Hq Hnet Hs Hjson L.
  pose proof (proj2 (Z.eqb_eq _ _) Hs) as S.
  simpl in Hq. injection Hq as <-.
  open_ops. rewrite create_url_plain. simpl.
  rewrite Hnet. simpl. rewrite Hjson. simpl. rewrite S. simpl. rewrite L. simpl.
  split; [destruct x; reflexivity | reflexivity].
Qed.

(** A number under [versions]: returned without a count, refused with one. *)
Lemma counted_versions_must_slice_witness :
  fst (get_app_versions (reply text_versions) marathon "x" (Some 2) w0)
    = Raise TypeError
  /\ fst (get_app_versions (reply text_versions) marathon "x" None w0)
     = Ret (VInt 3, None).
Proof.
  apply (counted_versions_must_slice (reply text_versions) marathon "x" 2 w0
           (mkRequest GET
              (url_pattern marathon ("v2/apps" ++ _sanitize_app_id "x" ++ "/versions"))
              None)
           text_versions [("versions", VInt 3)] (VInt 3));
    reflexivity.
Defined.

(** X3: a call depends on the network through the answer to its one
    request only: two transports that agree on that request give the same
    result, log and wire. *)
Theorem answer_is_all_that_matters (net net' : transport) (self : Client)
    (c : call) (w : world) (q : request) :
  the_request self c = Ret q ->
  net q = net' q ->
  run net self c w = run net' self c w.
Proof.
  intros Hq Hnet.
  call_up_to_answer c Hq; rewrite Hnet; reflexivity.
Qed.

(** A server that answers every request alike, and one that answers only
    the listing of the applications. *)
Lemma answer_is_all_that_matters_witness :
  run (reply empty_object) marathon GetApps w0
  = run (fun q => if String.eqb (url q) (url_pattern marathon "v2/apps")
                  then Ret empty_object else Raise RequestException)
      marathon GetApps w0.
Proof.
  apply (answer_is_all_that_matters (reply empty_object) _ marathon GetApps w0
           (mkRequest GET (url_pattern marathon "v2/apps") None));
    reflexivity.
Defined.

(** X9: a call logs at most one record at error level, the one that says
    the server sent no message, and it then returns the generic error. *)
Theorem one_error_record_at_most (net : transport) (self : Client) (c : call)
    (w : world) :
  error_records (snd (run net self c w)) = error_records w
  \/ (exists body,
        error_records (snd (run net self c w))
          = (error_records w ++ [no_message_record body])%list
        /\ fst (run net self c w)
           = Ret (failure c (mkError "Unknown error from Marathon"))).
Proof.
  destruct w as [lg st].
  destruct c as [a [v|] | a [k|] | | [v | [v|]] | a n f | a f | a f];
    open_ops; rewrite ?create_url_force, ?create_url_plain; simpl;
    try (destruct (_create_url self _ (force_params f)); simpl);
    cases; rewrite ?error_records_app; simpl; rewrite ?app_nil_r;
    first [ now left | right; eexists; split; reflexivity ].
Qed.

(** X10: [get_apps], [scale_app], [suspend_app] and [remove_app] log
    nothing at info level, whatever happens. *)
Theorem silent_operations (net : transport) (self : Client) (c : call)
    (w : world) :
  logs_nothing c = true ->
  filter is_info_record (logged (snd (run net self c w)))
  = filter is_info_record (logged w).
Proof.
  intros Hc. destruct w as [lg st].
  destruct c as [a [v|] | a [k|] | | [v | [v|]] | a n f | a f | a f];
    try discriminate Hc;
    open_ops; rewrite ?create_url_force, ?create_url_plain; simpl;
    try (destruct (_create_url self _ (force_params f)); simpl);
    cases; rewrite ?filter_app; simpl; rewrite ?app_nil_r; reflexivity.
Qed.

(** [remove_app] on an unknown application. *)
Lemma silent_operations_witness :
  filter is_info_record
    (logged (snd (run (reply app_not_found) marathon (RemoveApp "x" None) w0)))
  = filter is_info_record (logged w0).
Proof.
  apply (silent_operations (reply app_not_found) marathon (RemoveApp "x" None) w0).
  reflexivity.
Defined.

(** X11: [get_app] and [get_app_versions] log the URL before the request and
    the status with the body after it, both at info level, whenever the
    body is JSON; the only record that can follow is the one for a missing
    message. *)
Theorem reading_calls_log_request_and_answer (net : transport) (self : Client)
    (c : call) (w : world) (q : request) (r : response) (body : value) :
  logs_nothing c = false ->
  reads_success_body c = true ->
  the_request self c = Ret q ->
  net q = Ret r ->
  json r = Some body ->
  exists tail,
    logged (snd (run net self c w))
      = (logged w
         ++ [mkLog INFO "Getting %r" [VStr (url q)];
             mkLog INFO "Got (%r): %r" [VInt (status_code r); body]]
         ++ tail)%list
    /\ (tail = [] \/ tail = [no_message_record body]).
Proof.
  intros Hl Hb Hq Hnet Hjson. destruct w as [lg st].
  call_up_to_answer c Hq; try discriminate Hl; try discriminate Hb;
    rewrite Hnet; simpl; rewrite ?Hjson; simpl;
    cases; rewrite <- ?app_assoc; simpl;
    first [ exists []; split; [reflexivity | now left]
          | eexists; split; [reflexivity | now right] ].
Qed.

(** [get_app] on the 404 answer of an unknown application. *)
Lemma reading_calls_log_request_and_answer_witness :
  exists tail,
    logged (snd (run (reply app_not_found) marathon (GetApp "x" None) w0))
      = (logged w0
         ++ [mkLog INFO "Getting %r"
               [VStr (url_pattern marathon ("v2/apps" ++ _sanitize_app_id "x"))];
             mkLog INFO "Got (%r): %r"
               [VInt 404; VDict [("message", VStr "App not found")]]]
         ++ tail)%list
    /\ (tail = [] \/ tail = [no_message_record (VDict [("message", VStr "App not found")])]).
Proof.
  apply (reading_calls_log_request_and_answer (reply app_not_found) marathon
           (GetApp "x" None) w0
           (mkRequest GET (url_pattern marathon ("v2/apps" ++ _sanitize_app_id "x")) None)
           app_not_found (VDict [("message", VStr "App not found")]));
    reflexivity.
Defined.

(** X12: the URL [get_app] asks for a version is the URL of
    [get_app_versions] followed by a slash and the version as it was
    given: the version is not quoted. *)
Theorem version_is_appended_unquoted (net : transport) (self : Client)
    (app_id version : string) (max_count : option Z) (w : world) :
  exists u,
    sent (snd (get_app_versions net self app_id max_count w))
      = (sent w ++ [mkRequest GET u None])%list
    /\ sent (snd (get_app net self app_id (Some version) w))
      = (sent w ++ [mkRequest GET (u ++ "/" ++ version) None])%list.
Proof.
  exists (url_pattern self ("v2/apps" ++ _sanitize_app_id app_id ++ "/versions")).
  assert (E : url_pattern self ("v2/apps" ++ _sanitize_app_id app_id ++ "/versions/" ++ version)
              = url_pattern self ("v2/apps" ++ _sanitize_app_id app_id ++ "/versions")
                ++ "/" ++ version).
  { unfold url_pattern. rewrite !append_assoc. reflexivity. }
  rewrite <- E.
  split; open_ops; rewrite create_url_plain; simpl; cases; reflexivity.
Qed.

(** X14: when the URL of the application holds a brace that [str.format]
    does not read as literal text, the forced [scale_app] and [remove_app]
    raise before anything is sent or logged, while the call without
    [force] sends its request to that URL. *)
Theorem stray_brace_blocks_forced_calls (net : transport) (self : Client)
    (app_id : string) (instances : Z) (w : world) :
  Format.literal_text (url_pattern self ("v2/apps" ++ _sanitize_app_id app_id)) = None ->
  scale_app net self app_id instances (Some true) w = (Raise FormatError, w)
  /\ remove_app net self app_id (Some true) w = (Raise FormatError, w)
  /\ sent (snd (scale_app net self app_id instances None w))
     = (sent w ++ [mkRequest PUT (url_pattern self ("v2/apps" ++ _sanitize_app_id app_id))
                     (Some (VDict [("instances", VInt instances)]))])%list.
Proof.
  intros H.
  assert (U : _create_url self ("v2/apps" ++ _sanitize_app_id app_id)
                (Some [("force", VBool true)]) = Raise FormatError).
  { unfold _create_url, Format.format_query. now rewrite H. }
  repeat split; open_ops; rewrite ?U, ?create_url_plain; simpl;
    try reflexivity; cases; reflexivity.
Qed.

(** A host that is a replacement field. *)
Lemma stray_brace_blocks_forced_calls_witness :
  scale_app (reply deployed) braced "x" 3 (Some true) w0 = (Raise FormatError, w0)
  /\ remove_app (reply deployed) braced "x" (Some true) w0 = (Raise FormatError, w0)
  /\ sent (snd (scale_app (reply deployed) braced "x" 3 None w0))
     = (sent w0 ++ [mkRequest PUT (url_pattern braced ("v2/apps" ++ _sanitize_app_id "x"))
                      (Some (VDict [("instances", VInt 3)]))])%list.
Proof.
  apply (stray_brace_blocks_forced_calls (reply deployed) braced "x" 3 w0).
  reflexivity.
Defined.

End Calls.
